(** * metaphor-action: the story generator and the event router

    A shallow embedding of [src/metaphor-action/scripts/storyGenerator.js]
    (the revision that opens the file: the table-driven classifier, the
    five-placeholder renderer, the publisher and the label update) and of
    [src/metaphor-action/index.js] (the event router).

    JavaScript strings are modelled as [string]: the UTF-8 bytes of the text.
    All patterns the code searches for are ASCII, and an ASCII byte never
    occurs inside a multi-byte UTF-8 sequence, so searching the bytes finds
    the same occurrences as searching the UTF-16 code units. *)

From Stdlib Require Import String Ascii List Bool Arith NArith Lia.
Import ListNotations.

Local Open Scope string_scope.
Local Open Scope list_scope.

(** ** JavaScript array methods used by the source *)

Module JsArray.

(** [arr.includes(x)] on an array of strings ([===] on strings). *)
Definition includes (arr : list string) (x : string) : bool :=
  existsb (String.eqb x) arr.

(** [arr.every(p)]. *)
Definition every {A : Type} (p : A -> bool) (arr : list A) : bool :=
  forallb p arr.

(** [arr.some(p)]. *)
Definition some {A : Type} (p : A -> bool) (arr : list A) : bool :=
  existsb p arr.

(** [arr.find(p)]: the first element satisfying [p], [None] for
    [undefined]. *)
Definition find {A : Type} (p : A -> bool) (arr : list A) : option A :=
  List.find p arr.

(** [arr.reduce((acc, x, index) => f acc x index, init)], the index
    starting at [i]. *)
Fixpoint reduce_from {A B : Type} (f : B -> A -> nat -> B)
         (arr : list A) (i : nat) (acc : B) : B :=
  match arr with
  | [] => acc
  | x :: rest => reduce_from f rest (S i) (f acc x i)
  end.

Definition reduce {A B : Type} (f : B -> A -> nat -> B)
           (arr : list A) (init : B) : B :=
  reduce_from f arr 0 init.

(** [arr.join(sep)]. *)
Fixpoint join (sep : string) (arr : list string) : string :=
  match arr with
  | [] => ""
  | [x] => x
  | x :: rest => x ++ sep ++ join sep rest
  end.

End JsArray.

(** ** The story classifier (storyGenerator.js, lines 115-139) *)

(** The category table [metaphors]: pairs [[category, label]]. *)
Definition metaphors : list (string * string) :=
  [ ("linux", "linux");
    ("cpp", "cpp");
    ("css", "css");
    ("golang", "golang");
    ("javascript", "javascript");
    ("java", "java");
    ("maths", "maths");
    ("python", "python");
    ("php", "php");
    ("physics", "physics");
    ("ruby", "ruby");
    ("rust", "rust");
    ("zig", "zig") ].

(** The fixed category names, in declaration order. *)
Definition categories : list string := map fst metaphors.

(** The callback given to [some] and to [find]:
    [([category, label]) => labels.every(l => ['metaphore', category].includes(l))]. *)
Definition matchesCategory (labels : list string) (entry : string * string) : bool :=
  let '(category, _) := entry in
  JsArray.every (fun l => JsArray.includes ["metaphore"; category] l) labels.

(** [const isMetaphor = metaphors.some(...)]. *)
Definition isMetaphor (labels : list string) : bool :=
  JsArray.some (matchesCategory labels) metaphors.

(** The classifier: the [label] the handler passes to [createMetaphorFile],
    [None] when the [if (isMetaphor)] branch is not taken. *)
Definition classify (labels : list string) : option string :=
  if isMetaphor labels then
    match JsArray.find (matchesCategory labels) metaphors with
    | Some (_, label) => Some label
    | None => None
    end
  else None.

(** ** String.prototype.replace with a global RegExp and a string replacement *)

Module JsString.

(** Does character [c] occur in [s]? *)
Fixpoint has_char (c : ascii) (s : string) : bool :=
  match s with
  | EmptyString => false
  | String d r => Ascii.eqb c d || has_char c r
  end.

(** [s] without its first [n] characters. *)
Fixpoint drop (n : nat) (s : string) : string :=
  match n, s with
  | 0, _ => s
  | S _, EmptyString => EmptyString
  | S k, String _ r => drop k r
  end.

(** Number of positions of [s] at which [tok] occurs. *)
Fixpoint occurrences (tok s : string) : nat :=
  match s with
  | EmptyString => 0
  | String _ r => (if String.prefix tok s then 1 else 0) + occurrences tok r
  end.

(** ECMAScript GetSubstitution for a match without capture groups:
    [$$] gives a dollar sign, [$&] the matched text, [$`] the text before
    the match, [$'] the text after it; every other [$] (also [$1] and
    [$<], there being no captures) stays as it is. *)
Fixpoint getSubstitution (matched before after replacement : string) : string :=
  match replacement with
  | EmptyString => EmptyString
  | String c r =>
      if Ascii.eqb c "$" then
        match r with
        | EmptyString => String c EmptyString
        | String d r' =>
            if Ascii.eqb d "$" then String "$" (getSubstitution matched before after r')
            else if Ascii.eqb d "&" then matched ++ getSubstitution matched before after r'
            else if Ascii.eqb d "`" then before ++ getSubstitution matched before after r'
            else if Ascii.eqb d "'" then after ++ getSubstitution matched before after r'
            else String c (getSubstitution matched before after r)
        end
      else String c (getSubstitution matched before after r)
  end.

(** [str.replace(new RegExp(pat, 'g'), replacement)] for a pattern source
    [pat] that is a non-empty literal: the matches are the leftmost
    non-overlapping occurrences of [pat]. [before] is the part of the
    original string already scanned, [skip] the number of characters still
    to be consumed by the match in progress. *)
Fixpoint replace_scan (pat replacement before s : string) (skip : nat) : string :=
  match s with
  | EmptyString => EmptyString
  | String c r =>
      match skip with
      | S k => replace_scan pat replacement (before ++ String c EmptyString) r k
      | 0 =>
          if String.prefix pat s then
            getSubstitution pat before (drop (String.length pat) s) replacement
            ++ replace_scan pat replacement (before ++ String c EmptyString) r
                            (String.length pat - 1)
          else
            String c (replace_scan pat replacement (before ++ String c EmptyString) r 0)
      end
  end.

Definition replaceAll (pat replacement s : string) : string :=
  replace_scan pat replacement EmptyString s 0.

(** Width in bytes of the white space or line terminator at the head of [s],
    0 when there is none: tab to carriage return, the space, and in UTF-8
    U+00A0, U+1680, U+2000 to U+200A, U+2028, U+2029, U+202F, U+205F, U+3000
    and U+FEFF. *)
Definition space_width (s : string) : nat :=
  match s with
  | EmptyString => 0
  | String c r =>
      let n := nat_of_ascii c in
      if (((9 <=? n) && (n <=? 13)) || (n =? 32))%nat then 1
      else
        match r with
        | EmptyString => 0
        | String d r' =>
            let m := nat_of_ascii d in
            if ((n =? 194) && (m =? 160))%nat then 2
            else
              match r' with
              | EmptyString => 0
              | String e _ =>
                  let k := nat_of_ascii e in
                  if ((n =? 225) && (m =? 154) && (k =? 128))%nat then 3
                  else if ((n =? 226) && (m =? 128)
                           && (((128 <=? k) && (k <=? 138))
                               || (k =? 168) || (k =? 169) || (k =? 175)))%nat then 3
                  else if ((n =? 226) && (m =? 129) && (k =? 159))%nat then 3
                  else if ((n =? 227) && (m =? 128) && (k =? 128))%nat then 3
                  else if ((n =? 239) && (m =? 187) && (k =? 191))%nat then 3
                  else 0
              end
        end
  end.

(** [s.trimStart()]; [skip] is the number of bytes still to drop of the
    white space being removed. *)
Fixpoint trimStart_from (s : string) (skip : nat) : string :=
  match s with
  | EmptyString => EmptyString
  | String _ r =>
      match skip with
      | S k => trimStart_from r k
      | 0 =>
          match space_width s with
          | 0 => s
          | S k => trimStart_from r k
          end
      end
  end.

Definition trimStart (s : string) : string := trimStart_from s 0.

(** [s.trimEnd()]: what is left is cut where only white space follows. *)
Fixpoint trimEnd (s : string) : string :=
  match s with
  | EmptyString => EmptyString
  | String c r =>
      if String.eqb (trimStart s) EmptyString then EmptyString
      else String c (trimEnd r)
  end.

(** [s.trim()] *)
Definition trim (s : string) : string := trimEnd (trimStart s).

End JsString.

(** ** The content renderer (storyGenerator.js, lines 17-38) *)

Definition nl : string := String (ascii_of_nat 10) EmptyString.

(** The template literal of [createMetaphorFile]. *)
Definition template : string :=
  "---" ++ nl ++
  "layout: post" ++ nl ++
  "title: {title}" ++ nl ++
  "author: {author}" ++ nl ++
  "created_at: {created_at}" ++ nl ++
  "language: {language}" ++ nl ++
  "---" ++ nl ++
  nl ++
  "{content}".

Definition placeholders : list string :=
  ["{title}"; "{author}"; "{created_at}"; "{language}"; "{content}"].

(** [new RegExp(placeholder, 'g')]: none of the five sources contains regular
    expression syntax (an opening brace that does not start a quantifier
    [{n}], [{n,}] or [{n,m}] is an ordinary pattern character without the [u]
    flag), so each pattern matches its own text and nothing else. *)
Definition replace_RegExp_g (placeholder value str : string) : string :=
  JsString.replaceAll placeholder value str.

(** [placeholders.reduce((template, placeholder, index) =>
      template.replace(new RegExp(placeholder, 'g'), values[index]), template)];
    an index outside [values] would read [undefined]. *)
Definition render (title author created_at category body : string) : string :=
  let values := [title; author; created_at; category; body] in
  JsArray.reduce
    (fun template placeholder index =>
       replace_RegExp_g placeholder (nth index values "undefined") template)
    placeholders template.

(** The document the specification describes: the front matter with the five
    keys, a blank line, the body. *)
Definition story_document (title author created_at category body : string) : string :=
  "---" ++ nl ++
  "layout: post" ++ nl ++
  "title: " ++ title ++ nl ++
  "author: " ++ author ++ nl ++
  "created_at: " ++ created_at ++ nl ++
  "language: " ++ category ++ nl ++
  "---" ++ nl ++
  nl ++
  body.

(** The text made of the segments [seg], [segs] with the token between
    each two of them. *)
Fixpoint join_token (tok seg : string) (segs : list string) : string :=
  match segs with
  | [] => seg
  | next :: rest => seg ++ tok ++ join_token tok next rest
  end.

(** That text with every token replaced: by the expansion of the value [v]
    at the place of the token, [before] being the text in front of the first
    segment. *)
Fixpoint replace_tokens (tok v before seg : string) (segs : list string) : string :=
  match segs with
  | [] => seg
  | next :: rest =>
      seg ++ JsString.getSubstitution tok (before ++ seg) (join_token tok next rest) v
          ++ replace_tokens tok v (before ++ seg ++ tok) next rest
  end.

(** ** [Buffer.from(text).toString('base64')] *)

Module Base64.

Definition alphabet : string :=
  "ABCDEFGHIJKLMNOPQRSTUVWXYZabcdefghijklmnopqrstuvwxyz0123456789+/".

(** The character of a 6-bit value. *)
Definition digit (n : N) : ascii :=
  match String.get (N.to_nat n) alphabet with
  | Some c => c
  | None => "="%char
  end.

(** Standard alphabet, [=] padding, three bytes to four characters. *)
Fixpoint encode (s : string) : string :=
  match s with
  | EmptyString => EmptyString
  | String a EmptyString =>
      let x := N_of_ascii a in
      String (digit (N.shiftr x 2))
        (String (digit (N.shiftl (N.land x 3) 4)) "==")
  | String a (String b EmptyString) =>
      let x := N_of_ascii a in
      let y := N_of_ascii b in
      String (digit (N.shiftr x 2))
        (String (digit (N.lor (N.shiftl (N.land x 3) 4) (N.shiftr y 4)))
           (String (digit (N.shiftl (N.land y 15) 2)) "="))
  | String a (String b (String c r)) =>
      let x := N_of_ascii a in
      let y := N_of_ascii b in
      let z := N_of_ascii c in
      String (digit (N.shiftr x 2))
        (String (digit (N.lor (N.shiftl (N.land x 3) 4) (N.shiftr y 4)))
           (String (digit (N.lor (N.shiftl (N.land y 15) 2) (N.shiftr z 6)))
              (String (digit (N.land z 63)) (encode r))))
  end.

(** The 6-bit value of a character of the alphabet. *)
Fixpoint index_of (c : ascii) (s : string) (i : N) : option N :=
  match s with
  | EmptyString => None
  | String d r => if Ascii.eqb c d then Some i else index_of c r (N.succ i)
  end.

Definition value (c : ascii) : option N := index_of c alphabet 0.

(** The inverse transport: four characters to three bytes, the padded group
    last. *)
Fixpoint decode (s : string) : option string :=
  match s with
  | EmptyString => Some EmptyString
  | String c1 (String c2 (String c3 (String c4 r))) =>
      match value c1, value c2 with
      | Some v1, Some v2 =>
          let b1 := ascii_of_N (N.lor (N.shiftl v1 2) (N.shiftr v2 4)) in
          if Ascii.eqb c3 "=" then
            if Ascii.eqb c4 "=" && String.eqb r "" then Some (String b1 EmptyString)
            else None
          else
            match value c3 with
            | Some v3 =>
                let b2 :=
                  ascii_of_N (N.lor (N.shiftl (N.land v2 15) 4) (N.shiftr v3 2)) in
                if Ascii.eqb c4 "=" then
                  if String.eqb r "" then Some (String b1 (String b2 EmptyString))
                  else None
                else
                  match value c4, decode r with
                  | Some v4, Some rest =>
                      let b3 := ascii_of_N (N.lor (N.shiftl (N.land v3 3) 6) v4) in
                      Some (String b1 (String b2 (String b3 rest)))
                  | _, _ => None
                  end
            | None => None
            end
      | _, _ => None
      end
  | _ => None
  end.

(** Finite domains and the checks run over them. *)
Definition all_ascii : list ascii := map ascii_of_nat (seq 0 256).

Definition below (k : nat) : list N := map N.of_nat (seq 0 k).

Definition digit_ok (n : N) : bool :=
  match value (digit n) with Some m => N.eqb m n | None => false end
  && negb (Ascii.eqb (digit n) "=").

Definition join_ok (hi lo : nat) (width : N) : bool :=
  forallb
    (fun p =>
       forallb
         (fun q =>
            let v := N.lor (N.shiftl p width) q in
            N.ltb v 64 && N.eqb (N.shiftr v width) p && N.eqb (N.land v (N.ones width)) q)
         (below lo))
    (below hi).

Definition byte_ok (a : ascii) : bool :=
  let x := N_of_ascii a in
  N.ltb (N.shiftr x 2) 64 && N.ltb (N.land x 3) 4
  && N.ltb (N.shiftr x 4) 16 && N.ltb (N.land x 15) 16
  && N.ltb (N.shiftr x 6) 4 && N.ltb (N.land x 63) 64
  && Ascii.eqb (ascii_of_N (N.lor (N.shiftl (N.shiftr x 2) 2) (N.land x 3))) a
  && Ascii.eqb (ascii_of_N (N.lor (N.shiftl (N.shiftr x 4) 4) (N.land x 15))) a
  && Ascii.eqb (ascii_of_N (N.lor (N.shiftl (N.shiftr x 6) 6) (N.land x 63))) a.

End Base64.

(** ** The platform: the issue, the repository contents, the run *)

(** A thrown value: an [Error] with its class name and message. *)
Record JsError := { error_name : string; error_message : string }.

(** [`${error}`], that is [Error.prototype.toString]: the message alone
    when the name is empty, the name alone when the message is empty. *)
Definition error_toString (e : JsError) : string :=
  if String.eqb (error_name e) "" then error_message e
  else if String.eqb (error_message e) "" then error_name e
  else error_name e ++ ": " ++ error_message e.

Record User := { login : string }.
Record Label := { name : string }.

(** [issue.data], the fields the code reads. *)
Record IssueData := {
  title : string;
  user : User;
  created_at : string;
  body : string;
  state : string;
  labels : list Label;
  assignees : list User
}.

(** [context.issue] *)
Record IssueContext := { owner : string; repo : string; number : nat }.

Record Identity := { id_name : string; id_email : string }.

(** The argument of [client.rest.repos.createOrUpdateFileContents]. *)
Record FileRequest := {
  file_owner : string;
  file_repo : string;
  file_path : string;
  file_message : string;
  file_content : string;
  file_committer : Identity;
  file_author : Identity
}.

(** The argument of [client.rest.issues.addLabels]. *)
Record LabelRequest := {
  lbl_owner : string;
  lbl_repo : string;
  lbl_issue_number : nat;
  lbl_labels : list string
}.

Inductive ApiCall :=
| GetIssue (o r : string) (n : nat)
| CreateOrUpdateFileContents (req : FileRequest)
| AddLabels (req : LabelRequest).

(** The external platform as one run sees it: the issue the event is about,
    the files committed so far (path and transported content), the JSON text
    of the metadata a commit answers with, what adding labels does to the
    labels of the issue, and for each of the three requests the error it is
    rejected with, if any. *)
Record Platform := {
  issue : IssueData;
  files : list (string * string);
  commit_metadata : string;
  add_labels : list Label -> list string -> list Label;
  get_error : option JsError;
  commit_error : option JsError;
  label_error : option JsError
}.

(** The state of a run: the platform, the requests sent (oldest first), the
    console, the messages given to [core.setFailed] (each marks the run
    failed), and the rejections of promises nobody awaited. The two calls
    the story handler does not await complete in an order that timing
    decides: the order of their console lines and of their rejections is
    one of the possible ones, and nothing below is stated of it. *)
Record Run := {
  platform : Platform;
  calls : list ApiCall;
  console : list string;
  failures : list string;
  unhandled : list JsError
}.

(** Does the run end with a non-zero status? It does when [core.setFailed]
    was called, and when a rejection was left unhandled: the Node versions
    from 15 on end the process with status 1 then. *)
Definition run_failed (r : Run) : bool :=
  match failures r, unhandled r with
  | [], [] => false
  | _, _ => true
  end.

(** Adding labels to a duplicate-free ordered set: a label the issue already
    has changes nothing, a new one goes to the end. *)
Definition platform_addLabels (existing : list Label) (added : list string) : list Label :=
  fold_left
    (fun acc n =>
       if JsArray.includes (map name acc) n then acc else acc ++ [{| name := n |}])
    added existing.

(** A platform keeps the labels of an issue as a duplicate-free ordered set
    when it adds the labels of a request one at a time and skips those the
    issue already has. *)
Definition keeps_label_set (add : list Label -> list string -> list Label) : Prop :=
  (forall existing, add existing [] = existing)
  /\ (forall existing n rest,
         add existing (n :: rest)
         = add (if JsArray.includes (map name existing) n then existing
                else existing ++ [{| name := n |}])
               rest).

(** ** Completions: normal results and thrown errors over the run state *)

Inductive Completion (A : Type) :=
| Normal (a : A)
| Throw (e : JsError).
Arguments Normal {A} a.
Arguments Throw {A} e.

Definition Js (A : Type) : Type := Run -> Completion A * Run.

Definition ret {A : Type} (a : A) : Js A := fun r => (Normal a, r).

(** Sequencing, [await] included: a thrown error (a rejected awaited promise)
    skips the rest. *)
Definition bind {A B : Type} (m : Js A) (k : A -> Js B) : Js B :=
  fun r =>
    match m r with
    | (Normal a, r') => k a r'
    | (Throw e, r') => (Throw e, r')
    end.

Definition throw {A : Type} (e : JsError) : Js A := fun r => (Throw e, r).

(** [try { m } catch (error) { handler error }] *)
Definition try_catch {A : Type} (m : Js A) (handler : JsError -> Js A) : Js A :=
  fun r =>
    match m r with
    | (Normal a, r') => (Normal a, r')
    | (Throw e, r') => handler e r'
    end.

(** A call of an async function without [await]: the caller gets a promise
    and goes on; a rejection of that promise reaches no [catch]. Both calls
    made this way send their request at the call; the body is run to
    completion there, which is one of the orders in which the two can
    complete, and their requests act on different parts of the platform. *)
Definition no_await {A : Type} (m : Js A) : Js unit :=
  fun r =>
    match m r with
    | (Normal _, r') => (Normal tt, r')
    | (Throw e, r') =>
        (Normal tt,
         {| platform := platform r'; calls := calls r'; console := console r';
            failures := failures r'; unhandled := unhandled r' ++ [e] |})
    end.

Declare Scope js_scope.
Delimit Scope js_scope with js.
Notation "x <- m ;; k" := (bind m (fun x => k))
  (at level 61, m at next level, right associativity) : js_scope.
Notation "m ;; k" := (bind m (fun _ => k))
  (at level 61, right associativity) : js_scope.

Definition console_log (line : string) : Js unit :=
  fun r =>
    (Normal tt,
     {| platform := platform r; calls := calls r; console := console r ++ [line];
        failures := failures r; unhandled := unhandled r |}).

(** [core.setFailed(message)] *)
Definition setFailed (message : string) : Js unit :=
  fun r =>
    (Normal tt,
     {| platform := platform r; calls := calls r; console := console r;
        failures := failures r ++ [message]; unhandled := unhandled r |}).

Definition record_call (c : ApiCall) (r : Run) : Run :=
  {| platform := platform r; calls := calls r ++ [c]; console := console r;
     failures := failures r; unhandled := unhandled r |}.

Definition with_platform (p : Platform) (r : Run) : Run :=
  {| platform := p; calls := calls r; console := console r;
     failures := failures r; unhandled := unhandled r |}.

(** [client.rest.issues.get] *)
Definition issues_get (o rp : string) (n : nat) : Js IssueData :=
  fun r =>
    let r' := record_call (GetIssue o rp n) r in
    match get_error (platform r) with
    | Some e => (Throw e, r')
    | None => (Normal (issue (platform r)), r')
    end.

(** [client.rest.repos.createOrUpdateFileContents]: answers with the
    metadata of the commit. *)
Definition repos_createOrUpdateFileContents (req : FileRequest) : Js string :=
  fun r =>
    let r' := record_call (CreateOrUpdateFileContents req) r in
    let p := platform r in
    match commit_error p with
    | Some e => (Throw e, r')
    | None =>
        (Normal (commit_metadata p),
         with_platform
           {| issue := issue p;
              files := files p ++ [(file_path req, file_content req)];
              commit_metadata := commit_metadata p;
              add_labels := add_labels p;
              get_error := get_error p;
              commit_error := commit_error p;
              label_error := label_error p |} r')
    end.

(** [client.rest.issues.addLabels] *)
Definition issues_addLabels (req : LabelRequest) : Js unit :=
  fun r =>
    let r' := record_call (AddLabels req) r in
    let p := platform r in
    match label_error p with
    | Some e => (Throw e, r')
    | None =>
        let i := issue p in
        (Normal tt,
         with_platform
           {| issue :=
                {| title := title i; user := user i; created_at := created_at i;
                   body := body i; state := state i;
                   labels := add_labels p (labels i) (lbl_labels req);
                   assignees := assignees i |};
              files := files p;
              commit_metadata := commit_metadata p;
              add_labels := add_labels p;
              get_error := get_error p;
              commit_error := commit_error p;
              label_error := label_error p |} r')
    end.

(** [core.getInput(name, { required })] on the inputs of the run, an input
    that was not given reading as the empty string: the test for a required
    input is made on the value as given, the value returned is trimmed. *)
Definition getInput (inputs : string -> string) (input : string) (required : bool) : Js string :=
  let val := inputs input in
  if required && String.eqb val "" then
    throw {| error_name := "Error";
             error_message := "Input required and not supplied: " ++ input |}
  else ret (JsString.trim val).

(** [github.getOctokit(token)]: refuses an empty token. The client it
    returns is the platform of the run. *)
Definition getOctokit (token : string) : Js unit :=
  if String.eqb token "" then
    throw {| error_name := "Error";
             error_message := "Parameter token or opts.auth is required" |}
  else ret tt.

(** ** The handlers *)

Section Action.

Local Open Scope js_scope.

(** [./utils/slugify] and the bot identity of [./utils/git] are not part of
    the sources at hand; [JSON_stringify] is [JSON.stringify(s, undefined, 2)]
    on a string, used for a console line only. *)
Variable slugify : string -> string.
Variables ghBotUsername ghBotEmail : string.
Variable JSON_stringify : string -> string.

(** [../../scripts/greetingContributor], not part of the sources at hand.
    It gets the context and the three message inputs. *)
Variable greetingContributor : IssueContext -> string -> string -> string -> Js unit.

(** [createFileContent] (lines 86-102) *)
Definition createFileContent (o rp path message content : string) : Js string :=
  repos_createOrUpdateFileContents
    {| file_owner := o;
       file_repo := rp;
       file_path := path;
       file_message := message;
       file_content := content;
       file_committer := {| id_name := ghBotUsername; id_email := ghBotEmail |};
       file_author := {| id_name := ghBotUsername; id_email := ghBotEmail |} |}.

(** [createMetaphorFile] (lines 14-52) *)
Definition createMetaphorFile (issueData : IssueData) (context : IssueContext)
           (category : string) : Js unit :=
  let metaphorTitle := slugify (title issueData) in
  let replacedTemplate :=
    render (title issueData) (login (user issueData)) (created_at issueData)
           category (body issueData) in
  console_log ("Replacement result: " ++ JSON_stringify replacedTemplate) ;;
  let metaphorContent := Base64.encode replacedTemplate in
  createContent <-
    createFileContent (owner context) (repo context)
      ("public/collections/stories/" ++ category ++ "/" ++ metaphorTitle ++ ".md")
      ("docs(generate): new metaphor from @" ++ login (user issueData))
      metaphorContent ;;
  console_log ("Content Metadata: " ++ createContent).

(** [addLabelToClosedIssue] (lines 64-72) *)
Definition addLabelToClosedIssue (o rp : string) (issue_number : nat)
           (lbls : list string) : Js unit :=
  issues_addLabels
    {| lbl_owner := o; lbl_repo := rp; lbl_issue_number := issue_number;
       lbl_labels := lbls |} ;;
  console_log ("Label added: " ++ JsArray.join ", " lbls).

(** The value of the promise [module.exports] returns: [undefined], or
    [false] from the [catch]. *)
Inductive HandlerResult := Undefined | False.

(** The story handler, [module.exports] (lines 104-147). Neither
    [createMetaphorFile] nor [addLabelToClosedIssue] is awaited. *)
Definition storyGenerator (context : IssueContext) : Js HandlerResult :=
  try_catch
    (issue <- issues_get (owner context) (repo context) (number context) ;;
     let assignees := assignees issue in
     let isReviewerPresence :=
       JsArray.some
         (fun assignee => JsArray.includes ["darkterminal"; "mkubdev"] (login assignee))
         assignees in
     (if String.eqb (state issue) "closed" && isReviewerPresence then
        let labels := map name (labels issue) in
        let isMetaphor := JsArray.some (matchesCategory labels) metaphors in
        (if isMetaphor then
           match JsArray.find (matchesCategory labels) metaphors with
           | Some (category, label) =>
               console_log ("Is " ++ category ++ " metaphor") ;;
               no_await (createMetaphorFile issue context label)
           | None =>
               throw {| error_name := "TypeError";
                        error_message := "undefined is not iterable" |}
           end
         else ret tt) ;;
        no_await
          (addLabelToClosedIssue (owner context) (repo context) (number context)
                                 (labels ++ ["published"]))
      else ret tt) ;;
     ret Undefined)
    (fun error =>
       console_log ("Error on storyGenerator: " ++ error_toString error) ;;
       ret False).

(** The [switch (context.payload.action)] of index.js (lines 15-26);
    [None] is a payload without an [action] field. *)
Definition router (action : option string) (context : IssueContext)
           (issueMessage prMessage footer : string) : Js unit :=
  match action with
  | Some a =>
      if String.eqb a "closed" then
        storyGenerator context ;; ret tt
      else if String.eqb a "opened" then
        greetingContributor context issueMessage prMessage footer
      else
        console_log "No action, skipping" ;;
        setFailed "No action, skipping!"
  | None =>
      console_log "No action, skipping" ;;
      setFailed "No action, skipping!"
  end.

(** The body of index.js: read the inputs, make the client, dispatch,
    report whatever is thrown. *)
Definition main (inputs : string -> string) (action : option string)
           (context : IssueContext) : Js unit :=
  try_catch
    (githubToken <- getInput inputs "github-token" true ;;
     issueMessage <- getInput inputs "issue-message" false ;;
     prMessage <- getInput inputs "pr-message" false ;;
     footer <- getInput inputs "footer" false ;;
     client <- getOctokit githubToken ;;
     router action context issueMessage prMessage footer)
    (fun error => setFailed (error_message error)).

End Action.

(** A run starts with nothing sent, logged or reported. *)
Definition start (p : Platform) : Run :=
  {| platform := p; calls := []; console := []; failures := []; unhandled := [] |}.

(** The file commits and the label updates among the requests of a run. *)
Definition file_commits (r : Run) : list FileRequest :=
  flat_map (fun c => match c with CreateOrUpdateFileContents q => [q] | _ => [] end)
           (calls r).

Definition label_updates (r : Run) : list LabelRequest :=
  flat_map (fun c => match c with AddLabels q => [q] | _ => [] end) (calls r).

Definition issue_labels (r : Run) : list string :=
  map name (labels (issue (platform r))).

Definition reviewers : list string := ["darkterminal"; "mkubdev"].

(** Does some assignee of the issue belong to the reviewers? *)
Definition authorized (i : IssueData) : bool :=
  JsArray.some (fun assignee => JsArray.includes reviewers (login assignee)) (assignees i).

(** The request [createMetaphorFile] sends for a category, and the request
    the handler gives to [addLabelToClosedIssue]. *)
Definition story_request (slugify : string -> string) (ghBotUsername ghBotEmail : string)
           (i : IssueData) (context : IssueContext) (category : string) : FileRequest :=
  {| file_owner := owner context;
     file_repo := repo context;
     file_path :=
       "public/collections/stories/" ++ category ++ "/" ++ slugify (title i) ++ ".md";
     file_message := "docs(generate): new metaphor from @" ++ login (user i);
     file_content :=
       Base64.encode
         (render (title i) (login (user i)) (created_at i) category (body i));
     file_committer := {| id_name := ghBotUsername; id_email := ghBotEmail |};
     file_author := {| id_name := ghBotUsername; id_email := ghBotEmail |} |}.

Definition published_request (i : IssueData) (context : IssueContext) : LabelRequest :=
  {| lbl_owner := owner context;
     lbl_repo := repo context;
     lbl_issue_number := number context;
     lbl_labels := (map name (labels i) ++ ["published"])%list |}.

(** The condition of the handler's outer [if]. *)
Definition gate (i : IssueData) : bool :=
  String.eqb (state i) "closed" && authorized i.

(** ** Sample data: the scenario of issue 42 *)

Definition sample_context : IssueContext :=
  {| owner := "StreetCommunityProgrammer"; repo := "metaphore"; number := 42 |}.

(** A closed issue with the given labels, assignee and body. *)
Definition sample_issue (lbls : list string) (assignee bodytext : string) : IssueData :=
  {| title := "A Tale of Borrow Checker";
     user := {| login := "alice" |};
     created_at := "2023-05-01T10:00:00Z";
     body := bodytext;
     state := "closed";
     labels := map (fun n => {| name := n |}) lbls;
     assignees := [{| login := assignee |}] |}.

(** A platform on which no request fails. *)
Definition sample_platform (i : IssueData) : Platform :=
  {| issue := i; files := []; commit_metadata := "{}";
     add_labels := platform_addLabels;
     get_error := None; commit_error := None; label_error := None |}.

Definition sample_error : JsError :=
  {| error_name := "HttpError"; error_message := "Bad credentials" |}.

(** The platform of the scenario with the fetch of the issue rejected. *)
Definition sample_platform_fetch_fails : Platform :=
  {| issue := sample_issue ["metaphore"; "rust"] "darkterminal" "Once upon a compile...";
     files := []; commit_metadata := "{}";
     add_labels := platform_addLabels;
     get_error := Some sample_error; commit_error := None; label_error := None |}.

(** The issue of the scenario while it is still open. *)
Definition sample_open_issue : IssueData :=
  {| title := "A Tale of Borrow Checker";
     user := {| login := "alice" |};
     created_at := "2023-05-01T10:00:00Z";
     body := "Once upon a compile...";
     state := "open";
     labels := [{| name := "metaphore" |}; {| name := "rust" |}];
     assignees := [{| login := "darkterminal" |}] |}.

(** The platform of the scenario with the file commit rejected. *)
Definition sample_platform_commit_fails : Platform :=
  {| issue := sample_issue ["metaphore"; "rust"] "darkterminal" "Once upon a compile...";
     files := []; commit_metadata := "{}";
     add_labels := platform_addLabels;
     get_error := None; commit_error := Some sample_error; label_error := None |}.


(** The inputs of a run that was given a token and nothing else. *)
Definition sample_inputs (input : string) : string :=
  if String.eqb input "github-token" then "ghs_token" else "".

(** The fixed text of the template between the placeholders. *)
Definition frag_title : string := "---" ++ nl ++ "layout: post" ++ nl ++ "title: ".
Definition frag_author : string := nl ++ "author: ".
Definition frag_created_at : string := nl ++ "created_at: ".
Definition frag_language : string := nl ++ "language: ".
Definition frag_content : string := nl ++ "---" ++ nl ++ nl.

(** ** The classifier of the earlier revisions *)

(** The branch ladder of the revision with the reviewer gate
    (storyGenerator.js, lines 418-463): the category given to
    [createMetaphorFile], [None] when no branch is taken. *)
Definition classify_golang_ladder (labels : list string) : option string :=
  let isCssMetaphor :=
    JsArray.every (fun label => JsArray.includes ["metaphore"; "css"] label) labels in
  let isGolangMetaphor :=
    JsArray.every (fun label => JsArray.includes ["metaphore"; "golang"] label) labels in
  let isJavaScriptMetaphor :=
    JsArray.every (fun label => JsArray.includes ["metaphore"; "javascript"] label) labels in
  let isJavaMetaphor :=
    JsArray.every (fun label => JsArray.includes ["metaphore"; "java"] label) labels in
  let isMathsMetaphor :=
    JsArray.every (fun label => JsArray.includes ["metaphore"; "maths"] label) labels in
  let isPythonMetaphor :=
    JsArray.every (fun label => JsArray.includes ["metaphore"; "python"] label) labels in
  let isPhpMetaphor :=
    JsArray.every (fun label => JsArray.includes ["metaphore"; "php"] label) labels in
  let isPhysicsMetaphor :=
    JsArray.every (fun label => JsArray.includes ["metaphore"; "physics"] label) labels in
  let isRubyMetaphor :=
    JsArray.every (fun label => JsArray.includes ["metaphore"; "ruby"] label) labels in
  let isRustMetaphor :=
    JsArray.every (fun label => JsArray.includes ["metaphore"; "rust"] label) labels in
  let isZigMetaphor :=
    JsArray.every (fun label => JsArray.includes ["metaphore"; "zig"] label) labels in
  if isCssMetaphor then Some "css"
  else if isGolangMetaphor then Some "golang"
  else if isJavaScriptMetaphor then Some "javascript"
  else if isJavaMetaphor then Some "java"
  else if isMathsMetaphor then Some "maths"
  else if isPythonMetaphor then Some "python"
  else if isPhpMetaphor then Some "php"
  else if isPhysicsMetaphor then Some "physics"
  else if isRubyMetaphor then Some "ruby"
  else if isRustMetaphor then Some "rust"
  else if isZigMetaphor then Some "zig"
  else None.

(** The branch ladder of the revision before it (storyGenerator.js, lines
    243-288), with the category "go". *)
Definition classify_go_ladder (labels : list string) : option string :=
  let isCssMetaphor :=
    JsArray.every (fun label => JsArray.includes ["metaphore"; "css"] label) labels in
  let isGoMetaphor :=
    JsArray.every (fun label => JsArray.includes ["metaphore"; "go"] label) labels in
  let isJavaScriptMetaphor :=
    JsArray.every (fun label => JsArray.includes ["metaphore"; "javascript"] label) labels in
  let isJavaMetaphor :=
    JsArray.every (fun label => JsArray.includes ["metaphore"; "java"] label) labels in
  let isMathsMetaphor :=
    JsArray.every (fun label => JsArray.includes ["metaphore"; "maths"] label) labels in
  let isPythonMetaphor :=
    JsArray.every (fun label => JsArray.includes ["metaphore"; "python"] label) labels in
  let isPhpMetaphor :=
    JsArray.every (fun label => JsArray.includes ["metaphore"; "php"] label) labels in
  let isPhysicsMetaphor :=
    JsArray.every (fun label => JsArray.includes ["metaphore"; "physics"] label) labels in
  let isRubyMetaphor :=
    JsArray.every (fun label => JsArray.includes ["metaphore"; "ruby"] label) labels in
  let isRustMetaphor :=
    JsArray.every (fun label => JsArray.includes ["metaphore"; "rust"] label) labels in
  let isZigMetaphor :=
    JsArray.every (fun label => JsArray.includes ["metaphore"; "zig"] label) labels in
  if isCssMetaphor then Some "css"
  else if isGoMetaphor then Some "go"
  else if isJavaScriptMetaphor then Some "javascript"
  else if isJavaMetaphor then Some "java"
  else if isMathsMetaphor then Some "maths"
  else if isPythonMetaphor then Some "python"
  else if isPhpMetaphor then Some "php"
  else if isPhysicsMetaphor then Some "physics"
  else if isRubyMetaphor then Some "ruby"
  else if isRustMetaphor then Some "rust"
  else if isZigMetaphor then Some "zig"
  else None.

(** * Properties *)

(** ** Strings *)

Local Open Scope string_scope.

Lemma append_nil_r (s : string) : (s ++ "" = s)%string.
Proof. induction s as [|c s IH]; simpl; [reflexivity | now rewrite IH]. Qed.

Lemma append_assoc (s1 s2 s3 : string) : ((s1 ++ s2) ++ s3 = s1 ++ s2 ++ s3)%string.
Proof. induction s1 as [|c s1 IH]; simpl; [reflexivity | now rewrite IH]. Qed.

Lemma has_char_app (c : ascii) (s1 s2 : string) :
  JsString.has_char c (s1 ++ s2) = JsString.has_char c s1 || JsString.has_char c s2.
Proof.
  induction s1 as [|d s1 IH]; simpl; [reflexivity |].
  now rewrite IH, orb_assoc.
Qed.

Lemma prefix_app_self (p s : string) : String.prefix p (p ++ s) = true.
Proof.
  induction p as [|c p IH]; simpl.
  - now destruct s.
  - destruct (ascii_dec c c) as [_|n]; [exact IH | now elim n].
Qed.

Lemma prefix_first_char (c d : ascii) (p r : string) :
  Ascii.eqb c d = false -> String.prefix (String c p) (String d r) = false.
Proof.
  intros H. simpl. destruct (ascii_dec c d) as [e|_]; [|reflexivity].
  apply Ascii.eqb_neq in H. now elim H.
Qed.

Lemma drop_app_length (p s : string) : JsString.drop (String.length p) (p ++ s) = s.
Proof. induction p as [|c p IH]; simpl; [reflexivity | exact IH]. Qed.

(** A replacement without a dollar sign is inserted as it is. *)
Lemma getSubstitution_plain (m b a v : string) :
  JsString.has_char "$" v = false -> JsString.getSubstitution m b a v = v.
Proof.
  induction v as [|c v IH]; [reflexivity |].
  cbn [JsString.has_char JsString.getSubstitution].
  intros H. apply orb_false_iff in H as [Hc Hv].
  rewrite Ascii.eqb_sym, Hc. now rewrite (IH Hv).
Qed.

(** While a match is being consumed nothing is emitted. *)
Lemma replace_scan_skip (pat v before s1 s2 : string) :
  JsString.replace_scan pat v before (s1 ++ s2) (String.length s1)
  = JsString.replace_scan pat v (before ++ s1) s2 0.
Proof.
  revert before. induction s1 as [|c s1 IH]; intros before; simpl.
  - now rewrite append_nil_r.
  - rewrite IH, append_assoc. reflexivity.
Qed.

(** At an occurrence of the pattern the expanded replacement is emitted and
    the scan resumes behind the occurrence. *)
Lemma replace_scan_match (c : ascii) (p v before s : string) :
  (JsString.replace_scan (String c p) v before (String c p ++ s) 0
   = JsString.getSubstitution (String c p) before s v
     ++ JsString.replace_scan (String c p) v (before ++ String c p) s 0)%string.
Proof.
  change (String c p ++ s) with (String c (p ++ s)).
  cbn [JsString.replace_scan].
  change (String c (p ++ s)) with (String c p ++ s).
  rewrite prefix_app_self, drop_app_length.
  cbn [String.length]. rewrite Nat.sub_succ, Nat.sub_0_r.
  rewrite replace_scan_skip, append_assoc. reflexivity.
Qed.

(** Text without the first character of the pattern is copied. *)
Lemma replace_scan_copy (c : ascii) (p v before s1 s2 : string) :
  JsString.has_char c s1 = false ->
  (JsString.replace_scan (String c p) v before (s1 ++ s2) 0
   = s1 ++ JsString.replace_scan (String c p) v (before ++ s1) s2 0)%string.
Proof.
  revert before. induction s1 as [|d s1 IH]; intros before H.
  - simpl. now rewrite append_nil_r.
  - simpl in H. apply orb_false_iff in H as [Hd Hs].
    change (String d s1 ++ s2) with (String d (s1 ++ s2)).
    cbn [JsString.replace_scan].
    rewrite (prefix_first_char _ _ _ _ Hd).
    rewrite (IH _ Hs), append_assoc. reflexivity.
Qed.

(** Text in which the pattern does not occur is copied. *)
Lemma replace_scan_absent (pat v before s : string) :
  JsString.occurrences pat s = 0 ->
  JsString.replace_scan pat v before s 0 = s.
Proof.
  revert before. induction s as [|d s IH]; intros before H; [reflexivity |].
  cbn [JsString.occurrences] in H. cbn [JsString.replace_scan].
  destruct (String.prefix pat (String d s)); [discriminate |].
  simpl in H. now rewrite (IH _ H).
Qed.

Lemma occurrences_no_first (c : ascii) (p s : string) :
  JsString.has_char c s = false -> JsString.occurrences (String c p) s = 0.
Proof.
  induction s as [|d s IH]; intros H; [reflexivity |].
  simpl in H. apply orb_false_iff in H as [Hd Hs].
  cbn [JsString.occurrences].
  rewrite (prefix_first_char _ _ _ _ Hd), (IH Hs). reflexivity.
Qed.

(** One substitution step: a single occurrence of the placeholder, no
    opening brace before it, a value without dollar signs. *)
Lemma replaceAll_one (p v before after : string) :
  JsString.has_char "{" before = false ->
  JsString.has_char "$" v = false ->
  JsString.occurrences (String "{" p) after = 0 ->
  (JsString.replaceAll (String "{" p) v (before ++ String "{" p ++ after)
   = before ++ v ++ after)%string.
Proof.
  intros Hb Hv Ha. unfold JsString.replaceAll.
  rewrite (replace_scan_copy _ _ _ _ _ _ Hb), replace_scan_match.
  rewrite (getSubstitution_plain _ _ _ _ Hv), (replace_scan_absent _ _ _ _ Ha).
  reflexivity.
Qed.

Lemma length_append (s1 s2 : string) :
  String.length (s1 ++ s2) = String.length s1 + String.length s2.
Proof. induction s1 as [|c s1 IH]; simpl; [reflexivity | now rewrite IH]. Qed.


(** A pattern whose only opening brace is its first character cannot match
    across the opening brace of what follows. *)
Lemma prefix_before_brace (p s t : string) :
  JsString.has_char "{" p = false ->
  String.prefix p (s ++ String "{" t) = true ->
  String.length p <= String.length s.
Proof.
  revert s. induction p as [|d p IH]; intros s Hp H; [cbn; lia |].
  cbn [JsString.has_char] in Hp. apply orb_false_iff in Hp as [Hd Hp].
  destruct s as [|c s].
  - cbn in H. destruct (ascii_dec d "{") as [-> | _]; [| discriminate].
    rewrite Ascii.eqb_refl in Hd. discriminate.
  - change (String c s ++ String "{" t) with (String c (s ++ String "{" t)) in H.
    cbn [String.prefix] in H. destruct (ascii_dec d c) as [_ | _]; [| discriminate].
    cbn [String.length]. specialize (IH s Hp H). lia.
Qed.

Lemma prefix_app (q s t : string) :
  String.prefix q s = true -> String.prefix q (s ++ t) = true.
Proof.
  revert s. induction q as [|d q IH]; intros s H.
  - now destruct (s ++ t).
  - destruct s as [|c s]; [discriminate |].
    cbn [append String.prefix] in *. destruct (ascii_dec d c); [now apply IH | discriminate].
Qed.

Lemma prefix_within (q s t : string) :
  String.prefix q (s ++ t) = true -> String.length q <= String.length s ->
  String.prefix q s = true.
Proof.
  revert s. induction q as [|d q IH]; intros s H L.
  - now destruct s.
  - destruct s as [|c s]; [cbn in L; lia |].
    cbn [append String.prefix String.length] in *.
    destruct (ascii_dec d c); [apply IH; [exact H | lia] | discriminate].
Qed.

Lemma prefix_split (q s : string) :
  String.prefix q s = true -> exists t, s = q ++ t.
Proof.
  revert s. induction q as [|d q IH]; intros s H.
  - now exists s.
  - destruct s as [|c s]; [discriminate |].
    cbn [String.prefix] in H. destruct (ascii_dec d c) as [-> |]; [| discriminate].
    destruct (IH s H) as [t ->]. now exists t.
Qed.

(** A segment without the token is copied, whatever follows the token
    behind it. *)
Lemma replace_scan_segment (p v rest : string) :
  JsString.has_char "{" p = false ->
  forall seg before,
    JsString.occurrences (String "{" p) seg = 0 ->
    JsString.replace_scan (String "{" p) v before (seg ++ String "{" p ++ rest) 0
    = seg ++ JsString.replace_scan (String "{" p) v (before ++ seg)
                                   (String "{" p ++ rest) 0.
Proof.
  intros Hp. induction seg as [|c seg IH]; intros before H.
  - cbn [append]. now rewrite append_nil_r.
  - cbn [JsString.occurrences] in H.
    destruct (String.prefix (String "{" p) (String c seg)) eqn:M; [discriminate |].
    cbn [Nat.add] in H.
    change (String c seg ++ String "{" p ++ rest)
      with (String c (seg ++ String "{" (p ++ rest))).
    cbn [JsString.replace_scan].
    destruct (String.prefix (String "{" p) (String c (seg ++ String "{" (p ++ rest))))
      eqn:M'.
    + exfalso.
      assert (String.length p <= String.length seg) as L.
      { apply (prefix_before_brace p seg (p ++ rest) Hp).
        cbn [String.prefix] in M'. now destruct (ascii_dec "{" c). }
      change (String c (seg ++ String "{" (p ++ rest)))
        with (String c seg ++ String "{" (p ++ rest)) in M'.
      rewrite (prefix_within _ _ _ M') in M; [discriminate |].
      cbn [String.length]. lia.
    + change (String "{" (p ++ rest)) with (String "{" p ++ rest).
      rewrite (IH _ H), append_assoc. reflexivity.
Qed.

(** Every token between the segments is replaced. *)
Lemma replace_scan_tokens (p v : string) :
  JsString.has_char "{" p = false ->
  forall segs seg before,
    Forall (fun x => JsString.occurrences (String "{" p) x = 0) (seg :: segs) ->
    JsString.replace_scan (String "{" p) v before (join_token (String "{" p) seg segs) 0
    = replace_tokens (String "{" p) v before seg segs.
Proof.
  intros Hp. induction segs as [|next rest IH]; intros seg before H.
  - cbn [join_token replace_tokens]. apply replace_scan_absent.
    now inversion H.
  - inversion H as [|? ? Hseg Hrest]; subst.
    cbn [join_token replace_tokens].
    rewrite (replace_scan_segment p v _ Hp seg before Hseg).
    rewrite replace_scan_match, (IH next _ Hrest), !append_assoc. reflexivity.
Qed.

Lemma replace_tokens_plain (tok v : string) :
  JsString.has_char "$" v = false ->
  forall segs seg before, replace_tokens tok v before seg segs = join_token v seg segs.
Proof.
  intros Hv. induction segs as [|next rest IH]; intros seg before; [reflexivity |].
  cbn [join_token replace_tokens].
  now rewrite (getSubstitution_plain _ _ _ _ Hv), IH.
Qed.

Lemma first_occurrence (tok s : string) :
  JsString.occurrences tok s <> 0 ->
  exists s0 s', s = s0 ++ tok ++ s' /\ JsString.occurrences tok s0 = 0.
Proof.
  induction s as [|c s IH]; intros H; [now elim H |].
  cbn [JsString.occurrences] in H.
  destruct (String.prefix tok (String c s)) eqn:M.
  - destruct (prefix_split _ _ M) as [t E]. exists "", t. split; [exact E | reflexivity].
  - cbn [Nat.add] in H. destruct (IH H) as [s0 [s' [E Z]]].
    exists (String c s0), s'. split; [cbn; now rewrite E |].
    cbn [JsString.occurrences]. rewrite Z.
    destruct (String.prefix tok (String c s0)) eqn:M0; [| reflexivity].
    rewrite E in M. change (String c (s0 ++ tok ++ s')) with (String c s0 ++ tok ++ s') in M.
    rewrite (prefix_app _ _ _ M0) in M. discriminate.
Qed.

(** Every text is made of segments without the token, with the token
    between them. *)
Lemma token_decomposition (tok : string) :
  tok <> "" ->
  forall n s, String.length s <= n ->
    exists seg segs,
      s = join_token tok seg segs
      /\ Forall (fun x => JsString.occurrences tok x = 0) (seg :: segs).
Proof.
  intros Ht. induction n as [|n IH]; intros s L.
  - destruct s; [| cbn in L; lia]. exists "", []. split; [reflexivity | repeat constructor].
  - destruct (Nat.eq_dec (JsString.occurrences tok s) 0) as [Z | NZ].
    + exists s, []. split; [reflexivity | repeat constructor; exact Z].
    + destruct (first_occurrence tok s NZ) as [s0 [s' [E Z0]]].
      destruct (IH s') as [seg [segs [E' F]]].
      { subst s. rewrite !length_append in L.
        destruct tok; [now elim Ht | cbn [String.length] in L; lia]. }
      exists s0, (seg :: segs). split; [subst; reflexivity | now constructor].
Qed.

(** ** The renderer *)

Lemma template_fragments :
  template
  = frag_title ++ "{title}" ++ frag_author ++ "{author}" ++ frag_created_at
    ++ "{created_at}" ++ frag_language ++ "{language}" ++ frag_content ++ "{content}".
Proof. reflexivity. Qed.

Lemma story_document_fragments (t a c l b : string) :
  story_document t a c l b
  = frag_title ++ t ++ frag_author ++ a ++ frag_created_at ++ c
    ++ frag_language ++ l ++ frag_content ++ b.
Proof. reflexivity. Qed.

Lemma render_unfold (t a c l b : string) :
  render t a c l b
  = JsString.replaceAll "{content}" b
      (JsString.replaceAll "{language}" l
         (JsString.replaceAll "{created_at}" c
            (JsString.replaceAll "{author}" a
               (JsString.replaceAll "{title}" t template)))).
Proof. reflexivity. Qed.

(** With values free of dollar signs, and no opening brace in the four values
    substituted before the body, the five substitutions give the document
    with every field in its place. *)
Lemma render_plain (t a c l b : string) :
  JsString.has_char "$" t = false -> JsString.has_char "{" t = false ->
  JsString.has_char "$" a = false -> JsString.has_char "{" a = false ->
  JsString.has_char "$" c = false -> JsString.has_char "{" c = false ->
  JsString.has_char "$" l = false -> JsString.has_char "{" l = false ->
  JsString.has_char "$" b = false ->
  render t a c l b = story_document t a c l b.
Proof.
  intros Dt Bt Da Ba Dc Bc Dl Bl Db.
  rewrite render_unfold, template_fragments, story_document_fragments.
  (* {title} *)
  rewrite (replaceAll_one "title}" t frag_title); [| reflexivity | exact Dt | reflexivity].
  (* {author} *)
  replace (frag_title ++ t ++ frag_author ++ "{author}" ++ frag_created_at
           ++ "{created_at}" ++ frag_language ++ "{language}" ++ frag_content ++ "{content}")
    with ((frag_title ++ t ++ frag_author) ++ "{author}" ++ frag_created_at
          ++ "{created_at}" ++ frag_language ++ "{language}" ++ frag_content ++ "{content}")
    by (now rewrite !append_assoc).
  rewrite (replaceAll_one "author}" a);
    [| rewrite !has_char_app, Bt; reflexivity | exact Da | reflexivity].
  (* {created_at} *)
  replace ((frag_title ++ t ++ frag_author) ++ a ++ frag_created_at
           ++ "{created_at}" ++ frag_language ++ "{language}" ++ frag_content ++ "{content}")
    with ((frag_title ++ t ++ frag_author ++ a ++ frag_created_at)
          ++ "{created_at}" ++ frag_language ++ "{language}" ++ frag_content ++ "{content}")
    by (now rewrite !append_assoc).
  rewrite (replaceAll_one "created_at}" c);
    [| rewrite !has_char_app, Bt, Ba; reflexivity | exact Dc | reflexivity].
  (* {language} *)
  replace ((frag_title ++ t ++ frag_author ++ a ++ frag_created_at)
           ++ c ++ frag_language ++ "{language}" ++ frag_content ++ "{content}")
    with ((frag_title ++ t ++ frag_author ++ a ++ frag_created_at ++ c ++ frag_language)
          ++ "{language}" ++ frag_content ++ "{content}")
    by (now rewrite !append_assoc).
  rewrite (replaceAll_one "language}" l);
    [| rewrite !has_char_app, Bt, Ba, Bc; reflexivity | exact Dl | reflexivity].
  (* {content} *)
  replace ((frag_title ++ t ++ frag_author ++ a ++ frag_created_at ++ c ++ frag_language)
           ++ l ++ frag_content ++ "{content}")
    with ((frag_title ++ t ++ frag_author ++ a ++ frag_created_at ++ c ++ frag_language
           ++ l ++ frag_content) ++ "{content}" ++ "")
    by (now rewrite !append_assoc).
  rewrite (replaceAll_one "content}" b);
    [| rewrite !has_char_app, Bt, Ba, Bc, Bl; reflexivity | exact Db | reflexivity].
  now rewrite !append_assoc, append_nil_r.
Qed.

(** A document made of the fixed text and of values without an opening brace
    has none. *)
Lemma story_document_no_brace (t a c l b : string) :
  JsString.has_char "{" t = false -> JsString.has_char "{" a = false ->
  JsString.has_char "{" c = false -> JsString.has_char "{" l = false ->
  JsString.has_char "{" b = false ->
  JsString.has_char "{" (story_document t a c l b) = false.
Proof.
  intros Bt Ba Bc Bl Bb.
  rewrite story_document_fragments, !has_char_app, Bt, Ba, Bc, Bl, Bb.
  reflexivity.
Qed.

(** ** The classifier *)

Lemma includes_In (arr : list string) (x : string) :
  JsArray.includes arr x = true <-> In x arr.
Proof.
  unfold JsArray.includes. rewrite existsb_exists. split.
  - intros [y [Hy E]]. apply String.eqb_eq in E. now subst.
  - intros H. exists x. split; [exact H | apply String.eqb_refl].
Qed.

Lemma matchesCategory_iff (lbls : list string) (category label : string) :
  matchesCategory lbls (category, label) = true
  <-> forall x, In x lbls -> x = "metaphore" \/ x = category.
Proof.
  unfold matchesCategory, JsArray.every. rewrite forallb_forall.
  split; intros H x Hx; specialize (H x Hx).
  - apply includes_In in H. destruct H as [E | [E | []]]; auto.
  - apply includes_In. destruct H as [E | E]; subst; simpl; auto.
Qed.

Lemma find_hd_filter {A : Type} (p : A -> bool) (l : list A) :
  List.find p l = hd_error (filter p l).
Proof.
  induction l as [|x l IH]; simpl; [reflexivity |].
  destruct (p x); [reflexivity | exact IH].
Qed.

Lemma existsb_filter_nonempty {A : Type} (p : A -> bool) (l : list A) :
  existsb p l = match filter p l with [] => false | _ => true end.
Proof.
  induction l as [|x l IH]; simpl; [reflexivity |].
  destruct (p x); [reflexivity | exact IH].
Qed.

Lemma filter_none {A : Type} (p : A -> bool) (l : list A) :
  (forall x, In x l -> p x = false) -> filter p l = [].
Proof.
  induction l as [|x l IH]; intros H; simpl; [reflexivity |].
  rewrite (H x (or_introl eq_refl)). apply IH. intros y Hy. apply H. now right.
Qed.

(** The classifier returns the label of the first entry of the table, in
    declaration order, whose predicate holds. *)
Lemma classify_filter (lbls : list string) :
  classify lbls
  = match filter (matchesCategory lbls) metaphors with
    | [] => None
    | (_, label) :: _ => Some label
    end.
Proof.
  unfold classify, isMetaphor, JsArray.some, JsArray.find.
  rewrite existsb_filter_nonempty, find_hd_filter.
  destruct (filter (matchesCategory lbls) metaphors) as [|[c l] rest]; reflexivity.
Qed.

Lemma metaphore_not_category : ~ In "metaphore" categories.
Proof.
  intros H. repeat (destruct H as [H | H]; [discriminate H |]). exact H.
Qed.

(** The half of the exact-match contract the code meets: a label list whose
    elements are the tag and one category, both present, gives that
    category. *)
Lemma classify_exact_pair (lbls : list string) (X : string) :
  In X categories ->
  (forall x, In x lbls <-> x = "metaphore" \/ x = X) ->
  classify lbls = Some X.
Proof.
  intros HX Hl. rewrite classify_filter.
  assert (E : filter (matchesCategory lbls) metaphors
              = filter (fun e => String.eqb (fst e) X) metaphors).
  { apply filter_ext. intros [c l]. apply eq_true_iff_eq.
    rewrite matchesCategory_iff. cbn [fst]. rewrite String.eqb_eq. split.
    - intros H. destruct (H X) as [E | E]; [apply Hl; now right | | now symmetry].
      subst X. now elim metaphore_not_category.
    - intros -> x Hx. now apply Hl. }
  rewrite E. clear E Hl.
  repeat (destruct HX as [HX | HX]; [subst X; reflexivity |]).
  destruct HX.
Qed.

(** A label that is neither the tag nor a category prevents every match. *)
Lemma classify_extra_label (lbls : list string) (x : string) :
  In x lbls -> x <> "metaphore" -> ~ In x categories -> classify lbls = None.
Proof.
  intros Hx Hm Hc. rewrite classify_filter.
  assert (E : filter (matchesCategory lbls) metaphors = []).
  { apply filter_none. intros [c l] Hin.
    destruct (matchesCategory lbls (c, l)) eqn:M; [| reflexivity].
    rewrite matchesCategory_iff in M. destruct (M x Hx) as [E | E]; [now elim Hm |].
    elim Hc. subst x. unfold categories. now apply (in_map fst) in Hin. }
  now rewrite E.
Qed.

(** ** The transport encoding is binary-safe *)

Lemma all_ascii_complete (a : ascii) : In a Base64.all_ascii.
Proof.
  unfold Base64.all_ascii. rewrite <- (ascii_nat_embedding a).
  apply in_map, in_seq. pose proof (nat_ascii_bounded a). lia.
Qed.

Lemma below_complete (k : nat) (n : N) : (n < N.of_nat k)%N -> In n (Base64.below k).
Proof.
  intros H. unfold Base64.below. rewrite <- (N2Nat.id n). apply in_map, in_seq. lia.
Qed.

(** Each of the 64 characters stands for its own value and is not the
    padding. *)
Lemma digit_value (n : N) :
  (n < 64)%N ->
  Base64.value (Base64.digit n) = Some n
  /\ Ascii.eqb (Base64.digit n) "=" = false.
Proof.
  intros H.
  assert (forallb Base64.digit_ok (Base64.below 64) = true) as A
      by (vm_compute; reflexivity).
  rewrite forallb_forall in A. specialize (A n (below_complete 64 n H)).
  unfold Base64.digit_ok in A. apply andb_true_iff in A as [A1 A2].
  destruct (Base64.value (Base64.digit n)) as [m|]; [| discriminate].
  apply N.eqb_eq in A1. subst m. apply negb_true_iff in A2. auto.
Qed.

(** Two bits above four bits, and four bits above two bits, make a 6-bit
    value from which both parts are read back. *)
Lemma join_2_4 (p q : N) :
  (p < 4)%N -> (q < 16)%N ->
  (N.lor (N.shiftl p 4) q < 64)%N
  /\ N.shiftr (N.lor (N.shiftl p 4) q) 4 = p
  /\ N.land (N.lor (N.shiftl p 4) q) 15 = q.
Proof.
  intros Hp Hq.
  assert (Base64.join_ok 4 16 4 = true) as A by (vm_compute; reflexivity).
  unfold Base64.join_ok in A. rewrite forallb_forall in A.
  specialize (A p (below_complete 4 p Hp)). rewrite forallb_forall in A.
  specialize (A q (below_complete 16 q Hq)). cbv zeta in A.
  apply andb_true_iff in A as [A A3]. apply andb_true_iff in A as [A1 A2].
  apply N.ltb_lt in A1. apply N.eqb_eq in A2. apply N.eqb_eq in A3. auto.
Qed.

Lemma join_4_2 (p q : N) :
  (p < 16)%N -> (q < 4)%N ->
  (N.lor (N.shiftl p 2) q < 64)%N
  /\ N.shiftr (N.lor (N.shiftl p 2) q) 2 = p
  /\ N.land (N.lor (N.shiftl p 2) q) 3 = q.
Proof.
  intros Hp Hq.
  assert (Base64.join_ok 16 4 2 = true) as A by (vm_compute; reflexivity).
  unfold Base64.join_ok in A. rewrite forallb_forall in A.
  specialize (A p (below_complete 16 p Hp)). rewrite forallb_forall in A.
  specialize (A q (below_complete 4 q Hq)). cbv zeta in A.
  apply andb_true_iff in A as [A A3]. apply andb_true_iff in A as [A1 A2].
  apply N.ltb_lt in A1. apply N.eqb_eq in A2. apply N.eqb_eq in A3. auto.
Qed.

(** The three ways a byte is cut in two, with the bounds of the parts. *)
Lemma byte_parts (a : ascii) :
  ((N.shiftr (N_of_ascii a) 2 < 64)%N /\ (N.land (N_of_ascii a) 3 < 4)%N
   /\ (N.shiftr (N_of_ascii a) 4 < 16)%N /\ (N.land (N_of_ascii a) 15 < 16)%N
   /\ (N.shiftr (N_of_ascii a) 6 < 4)%N /\ (N.land (N_of_ascii a) 63 < 64)%N)
  /\ ascii_of_N (N.lor (N.shiftl (N.shiftr (N_of_ascii a) 2) 2)
                       (N.land (N_of_ascii a) 3)) = a
  /\ ascii_of_N (N.lor (N.shiftl (N.shiftr (N_of_ascii a) 4) 4)
                       (N.land (N_of_ascii a) 15)) = a
  /\ ascii_of_N (N.lor (N.shiftl (N.shiftr (N_of_ascii a) 6) 6)
                       (N.land (N_of_ascii a) 63)) = a.
Proof.
  assert (forallb Base64.byte_ok Base64.all_ascii = true) as A
      by (vm_compute; reflexivity).
  rewrite forallb_forall in A. specialize (A a (all_ascii_complete a)).
  unfold Base64.byte_ok in A. cbv zeta in A.
  repeat (apply andb_true_iff in A as [A ?]).
  repeat split; try (now apply N.ltb_lt); now apply Ascii.eqb_eq.
Qed.

Lemma decode_one (a : ascii) :
  Base64.decode (Base64.encode (String a "")) = Some (String a "").
Proof.
  destruct (byte_parts a) as [[h6 [l2 _]] [e62 _]].
  cbn [Base64.encode]. cbv zeta.
  assert (N.shiftl (N.land (N_of_ascii a) 3) 4
          = N.lor (N.shiftl (N.land (N_of_ascii a) 3) 4) 0) as E
      by now rewrite N.lor_0_r.
  destruct (join_2_4 _ 0%N l2 ltac:(lia)) as [J1 [J2 _]]. rewrite <- E in J1, J2.
  cbn [Base64.decode].
  destruct (digit_value _ h6) as [-> _]. destruct (digit_value _ J1) as [-> _].
  cbn [Ascii.eqb Bool.eqb andb String.eqb]. rewrite J2, e62. reflexivity.
Qed.

Lemma decode_two (a b : ascii) :
  Base64.decode (Base64.encode (String a (String b "")))
  = Some (String a (String b "")).
Proof.
  destruct (byte_parts a) as [[h6 [l2 _]] [e62 _]].
  destruct (byte_parts b) as [[_ [_ [h4 [l4 _]]]] [_ [e44 _]]].
  cbn [Base64.encode]. cbv zeta.
  destruct (join_2_4 _ _ l2 h4) as [J1 [J2 J3]].
  assert (N.shiftl (N.land (N_of_ascii b) 15) 2
          = N.lor (N.shiftl (N.land (N_of_ascii b) 15) 2) 0) as E
      by now rewrite N.lor_0_r.
  destruct (join_4_2 _ 0%N l4 ltac:(lia)) as [K1 [K2 _]]. rewrite <- E in K1, K2.
  cbn [Base64.decode].
  destruct (digit_value _ h6) as [-> _]. destruct (digit_value _ J1) as [-> _].
  destruct (digit_value _ K1) as [-> ->].
  cbn [Ascii.eqb Bool.eqb andb String.eqb]. rewrite J2, J3, K2, e62, e44. reflexivity.
Qed.

Lemma decode_three (a b c : ascii) (r : string) :
  Base64.decode (Base64.encode (String a (String b (String c r))))
  = match Base64.decode (Base64.encode r) with
    | Some rest => Some (String a (String b (String c rest)))
    | None => None
    end.
Proof.
  destruct (byte_parts a) as [[h6 [l2 _]] [e62 _]].
  destruct (byte_parts b) as [[_ [_ [h4 [l4 _]]]] [_ [e44 _]]].
  destruct (byte_parts c) as [[_ [_ [_ [_ [h2 l6]]]]] [_ [_ e26]]].
  cbn [Base64.encode]. cbv zeta.
  destruct (join_2_4 _ _ l2 h4) as [J1 [J2 J3]].
  destruct (join_4_2 _ _ l4 h2) as [K1 [K2 K3]].
  cbn [Base64.decode].
  destruct (digit_value _ h6) as [-> _]. destruct (digit_value _ J1) as [-> _].
  destruct (digit_value _ K1) as [-> ->]. destruct (digit_value _ l6) as [-> ->].
  rewrite J2, J3, K2, K3, e62, e44, e26. reflexivity.
Qed.

(** Every text is recovered from its encoding. *)
Lemma decode_encode (s : string) : Base64.decode (Base64.encode s) = Some s.
Proof.
  assert (Base64.decode (Base64.encode s) = Some s
          /\ (forall a, Base64.decode (Base64.encode (String a s)) = Some (String a s))
          /\ (forall a b, Base64.decode (Base64.encode (String a (String b s)))
                          = Some (String a (String b s)))) as H; [| apply H].
  induction s as [|c s [IH1 [IH2 IH3]]].
  - split; [reflexivity | split; [apply decode_one | apply decode_two]].
  - split; [apply IH2 | split; [intros a; apply IH3 |]].
    intros a b. now rewrite decode_three, IH1.
Qed.

Lemma encode_injective (s1 s2 : string) :
  Base64.encode s1 = Base64.encode s2 -> s1 = s2.
Proof.
  intros H. apply (f_equal Base64.decode) in H.
  rewrite !decode_encode in H. now injection H.
Qed.

(** ** The story handler *)

Ltac unfold_js :=
  unfold storyGenerator, createMetaphorFile, createFileContent, addLabelToClosedIssue,
    try_catch, no_await, bind, ret, throw, console_log, setFailed,
    issues_get, repos_createOrUpdateFileContents, issues_addLabels,
    record_call, with_platform, start.

Ltac js_simpl :=
  cbn [platform calls console failures unhandled fst snd
       issue files commit_metadata add_labels get_error commit_error label_error
       title user created_at body state labels assignees file_path file_content
       app andb].

Lemma isMetaphor_find (lbls : list string) :
  isMetaphor lbls = true ->
  JsArray.find (matchesCategory lbls) metaphors <> None.
Proof.
  unfold isMetaphor, JsArray.some, JsArray.find. intros H F.
  apply existsb_exists in H as [e [Hin He]].
  rewrite (find_none _ _ F e Hin) in He. discriminate.
Qed.

Section HandlerProperties.

Variable slugify : string -> string.
Variables ghBotUsername ghBotEmail : string.
Variable JSON_stringify : string -> string.

Local Abbreviation handler :=
  (storyGenerator slugify ghBotUsername ghBotEmail JSON_stringify).

(** A failed fetch is caught by the handler: one console line, [false]. *)
Lemma storyGenerator_fetch_failed (context : IssueContext) (p : Platform) (e : JsError) :
  get_error p = Some e ->
  handler context (start p)
  = (Normal False,
     {| platform := p;
        calls := [GetIssue (owner context) (repo context) (number context)];
        console := ["Error on storyGenerator: " ++ error_toString e];
        failures := [];
        unhandled := [] |}).
Proof.
  intros H. unfold_js. js_simpl. rewrite H. reflexivity.
Qed.

(** An issue that is not closed, or without a reviewer among its assignees:
    the fetch is the only request. *)
Lemma storyGenerator_gate_closed (context : IssueContext) (p : Platform) :
  get_error p = None -> gate (issue p) = false ->
  handler context (start p)
  = (Normal Undefined,
     {| platform := p;
        calls := [GetIssue (owner context) (repo context) (number context)];
        console := [];
        failures := [];
        unhandled := [] |}).
Proof.
  intros H G. unfold_js. js_simpl. rewrite H.
  change (JsArray.some
            (fun assignee => JsArray.includes ["darkterminal"; "mkubdev"] (login assignee))
            (assignees (issue p))) with (authorized (issue p)).
  unfold gate in G. rewrite G. reflexivity.
Qed.

(** The requests of a run that passes the gate: the fetch, the commit when a
    category matched, the label update in every case. *)
Lemma storyGenerator_gate_open_calls (context : IssueContext) (p : Platform) :
  get_error p = None -> gate (issue p) = true ->
  calls (snd (handler context (start p)))
  = (GetIssue (owner context) (repo context) (number context)
     :: match classify (map name (labels (issue p))) with
        | Some category =>
            [CreateOrUpdateFileContents
               (story_request slugify ghBotUsername ghBotEmail (issue p) context category)]
        | None => []
        end
     ++ [AddLabels (published_request (issue p) context)])%list.
Proof.
  intros H G. destruct p as [i f m al ge ce le]. cbn [get_error issue] in *. subst ge.
  unfold_js. js_simpl.
  change (JsArray.some
            (fun assignee => JsArray.includes ["darkterminal"; "mkubdev"] (login assignee))
            (assignees i)) with (authorized i).
  unfold gate in G. rewrite G.
  change (JsArray.some (matchesCategory (map name (labels i))) metaphors)
    with (isMetaphor (map name (labels i))).
  unfold classify.
  destruct (isMetaphor (map name (labels i))) eqn:M.
  - destruct (JsArray.find _ _) as [[c l]|] eqn:F.
    + destruct ce, le; reflexivity.
    + now elim (isMetaphor_find _ M).
  - destruct le; reflexivity.
Qed.

(** The labels of the issue after a run that passes the gate. *)
Lemma storyGenerator_gate_open_labels (context : IssueContext) (p : Platform) :
  get_error p = None -> gate (issue p) = true ->
  labels (issue (platform (snd (handler context (start p)))))
  = match label_error p with
    | None =>
        add_labels p (labels (issue p))
                   (map name (labels (issue p)) ++ ["published"])%list
    | Some _ => labels (issue p)
    end.
Proof.
  intros H G. destruct p as [i f m al ge ce le].
  cbn [get_error issue label_error add_labels] in *.
  subst ge. unfold_js. js_simpl.
  change (JsArray.some
            (fun assignee => JsArray.includes ["darkterminal"; "mkubdev"] (login assignee))
            (assignees i)) with (authorized i).
  unfold gate in G. rewrite G.
  change (JsArray.some (matchesCategory (map name (labels i))) metaphors)
    with (isMetaphor (map name (labels i))).
  destruct (isMetaphor (map name (labels i))) eqn:M.
  - destruct (JsArray.find _ _) as [[c l]|] eqn:F.
    + destruct ce, le; reflexivity.
    + now elim (isMetaphor_find _ M).
  - destruct le; reflexivity.
Qed.

(** A run of the handler never reports a failure, and its promise is always
    fulfilled. *)
Lemma storyGenerator_never_fails (context : IssueContext) (p : Platform) :
  (exists v, fst (handler context (start p)) = Normal v)
  /\ failures (snd (handler context (start p))) = [].
Proof.
  destruct p as [i f m al ge ce le].
  unfold_js. js_simpl.
  destruct ge as [e|]; [split; [eexists |]; reflexivity |].
  destruct (_ && _); [| split; [eexists |]; reflexivity].
  change (JsArray.some (matchesCategory (map name (labels i))) metaphors)
    with (isMetaphor (map name (labels i))).
  destruct (isMetaphor (map name (labels i))) eqn:M.
  - destruct (JsArray.find _ _) as [[c l]|] eqn:F.
    + destruct ce, le; (split; [eexists |]; reflexivity).
    + now elim (isMetaphor_find _ M).
  - destruct le; (split; [eexists |]; reflexivity).
Qed.

(** The platform after a run that passes the gate: the labels are updated
    unless that request fails, the file is added when a category matched and
    the commit was accepted; nothing else changes. *)
Lemma storyGenerator_gate_open_platform (context : IssueContext) (p : Platform) :
  get_error p = None -> gate (issue p) = true ->
  platform (snd (handler context (start p)))
  = {| issue :=
         {| title := title (issue p); user := user (issue p);
            created_at := created_at (issue p); body := body (issue p);
            state := state (issue p);
            labels :=
              match label_error p with
              | None =>
                  add_labels p (labels (issue p))
                    (map name (labels (issue p)) ++ ["published"])%list
              | Some _ => labels (issue p)
              end;
            assignees := assignees (issue p) |};
       files :=
         (files p ++
          match classify (map name (labels (issue p))), commit_error p with
          | Some category, None =>
              [(file_path (story_request slugify ghBotUsername ghBotEmail
                                         (issue p) context category),
                file_content (story_request slugify ghBotUsername ghBotEmail
                                            (issue p) context category))]
          | _, _ => []
          end)%list;
       commit_metadata := commit_metadata p;
       add_labels := add_labels p;
       get_error := get_error p;
       commit_error := commit_error p;
       label_error := label_error p |}.
Proof.
  intros H G. destruct p as [[t u ca b st ls asg] f m al ge ce le].
  cbn [get_error issue label_error commit_error files commit_metadata add_labels
       title user created_at body state labels assignees] in *.
  subst ge. unfold_js. js_simpl.
  change (JsArray.some
            (fun assignee => JsArray.includes ["darkterminal"; "mkubdev"] (login assignee))
            asg) with (authorized {| title := t; user := u; created_at := ca; body := b;
                                    state := st; labels := ls; assignees := asg |}).
  unfold gate in G. cbn [state] in G. rewrite G.
  change (JsArray.some (matchesCategory (map name ls)) metaphors)
    with (isMetaphor (map name ls)).
  unfold classify.
  destruct (isMetaphor (map name ls)) eqn:M.
  - destruct (JsArray.find _ _) as [[c l]|] eqn:F.
    + destruct ce, le; cbn [story_request file_path file_content title];
        rewrite ?app_nil_r; reflexivity.
    + now elim (isMetaphor_find _ M).
  - destruct ce, le; rewrite ?app_nil_r; reflexivity.
Qed.

(** The result of the handler and the rejections nobody awaited, for a run
    that passes the gate. *)
Lemma storyGenerator_gate_open_outcome (context : IssueContext) (p : Platform) :
  get_error p = None -> gate (issue p) = true ->
  fst (handler context (start p)) = Normal Undefined
  /\ unhandled (snd (handler context (start p)))
     = (match classify (map name (labels (issue p))), commit_error p with
        | Some _, Some e => [e]
        | _, _ => []
        end
        ++ match label_error p with
           | Some e => [e]
           | None => []
           end)%list.
Proof.
  intros H G. destruct p as [i f m al ge ce le].
  cbn [get_error issue label_error commit_error] in *. subst ge.
  unfold_js. js_simpl.
  change (JsArray.some
            (fun assignee => JsArray.includes ["darkterminal"; "mkubdev"] (login assignee))
            (assignees i)) with (authorized i).
  unfold gate in G. rewrite G.
  change (JsArray.some (matchesCategory (map name (labels i))) metaphors)
    with (isMetaphor (map name (labels i))).
  unfold classify.
  destruct (isMetaphor (map name (labels i))) eqn:M.
  - destruct (JsArray.find _ _) as [[c l]|] eqn:F.
    + destruct ce, le; split; reflexivity.
    + now elim (isMetaphor_find _ M).
  - destruct ce, le; split; reflexivity.
Qed.

(** The console of a run that passes the gate has no line of the handler's
    [catch]. *)
Lemma storyGenerator_gate_open_console (context : IssueContext) (p : Platform) :
  get_error p = None -> gate (issue p) = true ->
  Forall (fun line => String.prefix "Error on storyGenerator" line = false)
         (console (snd (handler context (start p)))).
Proof.
  intros H G. destruct p as [i f m al ge ce le].
  cbn [get_error issue label_error commit_error] in *. subst ge.
  unfold_js. js_simpl.
  change (JsArray.some
            (fun assignee => JsArray.includes ["darkterminal"; "mkubdev"] (login assignee))
            (assignees i)) with (authorized i).
  unfold gate in G. rewrite G.
  change (JsArray.some (matchesCategory (map name (labels i))) metaphors)
    with (isMetaphor (map name (labels i))).
  destruct (isMetaphor (map name (labels i))) eqn:M.
  - destruct (JsArray.find _ _) as [[c l]|] eqn:F.
    + destruct ce, le; js_simpl; repeat constructor.
    + now elim (isMetaphor_find _ M).
  - destruct le; js_simpl; repeat constructor.
Qed.

End HandlerProperties.

(** ** The label set of the platform *)

Lemma platform_addLabels_app (existing : list Label) (a b : list string) :
  platform_addLabels existing (a ++ b)%list
  = platform_addLabels (platform_addLabels existing a) b.
Proof. unfold platform_addLabels. apply fold_left_app. Qed.

(** Adding labels the issue already has changes nothing. *)
Lemma platform_addLabels_present (existing : list Label) (added : list string) :
  (forall n, In n added -> In n (map name existing)) ->
  platform_addLabels existing added = existing.
Proof.
  induction added as [|n added IH]; intros H; [reflexivity |].
  unfold platform_addLabels. cbn [fold_left].
  rewrite (proj2 (includes_In _ _) (H n (or_introl eq_refl))).
  apply IH. intros x Hx. apply H. now right.
Qed.

Lemma platform_addLabels_keeps_label_set : keeps_label_set platform_addLabels.
Proof. split; reflexivity. Qed.

(** A platform that keeps a label set adds labels as [platform_addLabels]
    does. *)
Lemma keeps_label_set_ext (add : list Label -> list string -> list Label) :
  keeps_label_set add ->
  forall existing added, add existing added = platform_addLabels existing added.
Proof.
  intros [H0 H1] existing added. revert existing.
  induction added as [|n added IH]; intros existing.
  - apply H0.
  - rewrite H1, IH. reflexivity.
Qed.

(** What the request of the handler does to the labels: the sentinel is
    appended unless it is there. *)
Lemma platform_addLabels_published (existing : list Label) :
  platform_addLabels existing (map name existing ++ ["published"])%list
  = if JsArray.includes (map name existing) "published" then existing
    else (existing ++ [{| name := "published" |}])%list.
Proof.
  rewrite platform_addLabels_app.
  rewrite (platform_addLabels_present existing (map name existing));
    [reflexivity | intros n Hn; exact Hn].
Qed.

(** ** The claims about the classifier *)

Lemma find_first {A : Type} (p : A -> bool) (l : list A) :
  match List.find p l with
  | Some x =>
      exists before after,
        l = (before ++ x :: after)%list
        /\ forallb (fun e => negb (p e)) before = true
        /\ p x = true
  | None => forallb (fun e => negb (p e)) l = true
  end.
Proof.
  induction l as [|y l IH]; [reflexivity |].
  cbn [List.find]. destruct (p y) eqn:Py.
  - exists [], l. repeat split. exact Py.
  - destruct (List.find p l) as [x|].
    + destruct IH as [before [after [E [Hb Hx]]]].
      exists (y :: before), after. subst l. repeat split; [| exact Hx].
      cbn [forallb]. now rewrite Py, Hb.
    + cbn [forallb]. now rewrite Py, IH.
Qed.

Lemma metaphors_label_is_category (c l : string) : In (c, l) metaphors -> l = c.
Proof.
  intros H. repeat (destruct H as [H | H]; [now inversion H |]). destruct H.
Qed.

Lemma matchesCategory_false_iff (lbls : list string) (category label : string) :
  matchesCategory lbls (category, label) = false
  <-> exists x, In x lbls /\ x <> "metaphore" /\ x <> category.
Proof.
  unfold matchesCategory, JsArray.every. induction lbls as [|y lbls IH].
  - split; [discriminate | intros [x [[] _]]].
  - cbn [forallb]. rewrite andb_false_iff, IH. split.
    + intros [H | [x [Hx Hn]]].
      * exists y. split; [now left |].
        split; intros ->; cbn in H;
          rewrite ?String.eqb_refl, ?orb_true_r in H; discriminate.
      * exists x. split; [now right | exact Hn].
    + intros [x [[-> | Hx] [Hm Hc]]].
      * left. destruct (JsArray.includes _ x) eqn:I; [| reflexivity].
        apply includes_In in I. destruct I as [E | [E | []]]; now subst.
      * right. exists x. auto.
Qed.

(** C10. When several categories satisfy the predicate the classifier takes
    the first of them in the declaration order of the table: the entries
    before the selected one all fail the predicate. The empty label list and
    the list with the tag alone satisfy it for all thirteen categories, and
    both are classified "linux", the head of the table. *)
Theorem classify_first_in_declaration_order :
  (forall lbls,
      match classify lbls with
      | Some c =>
          exists before after,
            metaphors = (before ++ (c, c) :: after)%list
            /\ forallb (fun e => negb (matchesCategory lbls e)) before = true
            /\ matchesCategory lbls (c, c) = true
      | None => forallb (fun e => negb (matchesCategory lbls e)) metaphors = true
      end)
  /\ filter (matchesCategory []) metaphors = metaphors
  /\ filter (matchesCategory ["metaphore"]) metaphors = metaphors
  /\ classify [] = Some "linux"
  /\ classify ["metaphore"] = Some "linux"
  /\ hd_error categories = Some "linux".
Proof.
  split; [| repeat split].
  intros lbls. unfold classify, isMetaphor, JsArray.some, JsArray.find.
  pose proof (find_first (matchesCategory lbls) metaphors) as F.
  destruct (existsb (matchesCategory lbls) metaphors) eqn:E.
  - destruct (List.find (matchesCategory lbls) metaphors) as [[c l]|] eqn:Fd.
    + apply find_some in Fd as [Hin _].
      apply metaphors_label_is_category in Hin. subst l. exact F.
    + exact F.
  - destruct (List.find (matchesCategory lbls) metaphors) as [x|] eqn:Fd; [| exact F].
    apply find_some in Fd as [Hin Hx].
    assert (existsb (matchesCategory lbls) metaphors = true) as E'
        by (apply existsb_exists; now exists x).
    rewrite E' in E. discriminate.
Qed.

(** What the classifier accepts and what it rejects. *)
Lemma classify_characterisation (lbls : list string) :
  (forall X, In X categories ->
             (forall x, In x lbls <-> x = "metaphore" \/ x = X) ->
             classify lbls = Some X)
  /\ (classify lbls = None
      <-> forall c, In c categories ->
                    exists x, In x lbls /\ x <> "metaphore" /\ x <> c)
  /\ (forall X, classify lbls = Some X ->
                In X categories
                /\ forall x, In x lbls -> x = "metaphore" \/ x = X).
Proof.
  split; [| split].
  - intros X HX H. now apply classify_exact_pair.
  - rewrite classify_filter. split.
    + intros H c Hc. apply (matchesCategory_false_iff lbls c c).
      destruct (matchesCategory lbls (c, c)) eqn:M; [| reflexivity].
      assert (In (c, c) (filter (matchesCategory lbls) metaphors)) as Hin.
      { apply filter_In. split; [| exact M].
        unfold categories in Hc. apply in_map_iff in Hc as [[c' l'] [E Hin]].
        cbn in E. subst c'. now rewrite <- (metaphors_label_is_category _ _ Hin) at 2. }
      destruct (filter (matchesCategory lbls) metaphors) as [|[? ?] ?];
        [destruct Hin | discriminate].
    + intros H. rewrite filter_none; [reflexivity |].
      intros [c l] Hin. apply matchesCategory_false_iff. apply H.
      unfold categories. now apply (in_map fst) in Hin.
  - intros X H. rewrite classify_filter in H.
    destruct (filter (matchesCategory lbls) metaphors) as [|[c l] rest] eqn:F;
      [discriminate |].
    injection H as ->.
    assert (In (c, X) (filter (matchesCategory lbls) metaphors)) as Hin
        by (rewrite F; now left).
    apply filter_In in Hin as [Hin M].
    pose proof (metaphors_label_is_category _ _ Hin) as ->.
    split.
    + unfold categories. now apply (in_map fst) in Hin.
    + exact (proj1 (matchesCategory_iff _ _ _) M).
Qed.

(** C1 fails as stated: a lone category label, without the tag, and the
    empty label list are both matched. *)
Lemma classify_requires_no_tag :
  ~ In "metaphore" ["rust"]
  /\ classify ["rust"] = Some "rust"
  /\ classify [] = Some "linux".
Proof.
  split; [| split; reflexivity].
  intros [H | []]. discriminate H.
Qed.

(** ** The claims about the renderer *)

(** C3, as the code has it. For every five values the renderer applies the
    five substitutions one after the other, each to the output of the one
    before, and each replaces every occurrence of its token: whatever text
    it is given is made of segments without the token, with the token
    between them, and comes out with the segments unchanged and, in place of
    each token, the value read as a replacement pattern, which is the value
    itself when it contains no dollar sign. When no value contains a dollar
    sign and none of title, author, timestamp and category contains an
    opening brace, each placeholder of the template is replaced once by its
    own field and the rendered text is the document with the five values in
    place; a placeholder token inside the body is then left as it is. *)
Theorem render_values_in_place (t a c l b : string) :
  render t a c l b
  = replace_RegExp_g "{content}" b
      (replace_RegExp_g "{language}" l
         (replace_RegExp_g "{created_at}" c
            (replace_RegExp_g "{author}" a
               (replace_RegExp_g "{title}" t template))))
  /\ (forall tok v s,
         In tok placeholders ->
         exists seg segs,
           s = join_token tok seg segs
           /\ Forall (fun x => JsString.occurrences tok x = 0) (seg :: segs)
           /\ replace_RegExp_g tok v s = replace_tokens tok v "" seg segs
           /\ (JsString.has_char "$" v = false ->
               replace_RegExp_g tok v s = join_token v seg segs))
  /\ (JsString.has_char "$" t = false -> JsString.has_char "{" t = false ->
      JsString.has_char "$" a = false -> JsString.has_char "{" a = false ->
      JsString.has_char "$" c = false -> JsString.has_char "{" c = false ->
      JsString.has_char "$" l = false -> JsString.has_char "{" l = false ->
      JsString.has_char "$" b = false ->
      render t a c l b = story_document t a c l b).
Proof.
  split; [reflexivity | split; [| apply render_plain]].
  intros tok v s Htok.
  assert (exists p, tok = String "{" p /\ JsString.has_char "{" p = false) as [p [-> Hp]].
  { repeat (destruct Htok as [<- | Htok]; [eexists; split; reflexivity |]).
    destruct Htok. }
  destruct (token_decomposition (String "{" p) ltac:(discriminate)
              (String.length s) s (Nat.le_refl _)) as [seg [segs [E F]]].
  exists seg, segs. split; [exact E | split; [exact F |]].
  assert (replace_RegExp_g (String "{" p) v s
          = replace_tokens (String "{" p) v "" seg segs) as R.
  { unfold replace_RegExp_g, JsString.replaceAll. rewrite E.
    now apply replace_scan_tokens. }
  split; [exact R |].
  intros Hv. rewrite R. now apply replace_tokens_plain.
Qed.

(** A body that quotes two placeholders stays as it is. *)
Lemma render_values_in_place_witness :
  JsString.has_char "$" "A Tale of Borrow Checker" = false
  /\ JsString.has_char "{" "A Tale of Borrow Checker" = false
  /\ JsString.has_char "$" "Use {title} and {content}." = false
  /\ render "A Tale of Borrow Checker" "alice" "2023-05-01T10:00:00Z" "rust"
             "Use {title} and {content}."
      = story_document "A Tale of Borrow Checker" "alice" "2023-05-01T10:00:00Z" "rust"
                       "Use {title} and {content}.".
Proof.
  repeat (split; [reflexivity |]).
  exact (proj2 (proj2 (render_values_in_place
                         "A Tale of Borrow Checker" "alice" "2023-05-01T10:00:00Z" "rust"
                         "Use {title} and {content}."))
               eq_refl eq_refl eq_refl eq_refl eq_refl eq_refl eq_refl eq_refl eq_refl).
Defined.

(** C3 fails as stated: a title that is the text of the body placeholder is
    replaced by the body in the last substitution, so the title line shows
    the value of another field. *)
Lemma render_title_token_replaced_by_body :
  render "{content}" "alice" "2023-05-01T10:00:00Z" "rust" "Once upon a compile..."
  = story_document "Once upon a compile..." "alice" "2023-05-01T10:00:00Z" "rust"
                   "Once upon a compile..."
  /\ render "{content}" "alice" "2023-05-01T10:00:00Z" "rust" "Once upon a compile..."
     <> story_document "{content}" "alice" "2023-05-01T10:00:00Z" "rust"
                       "Once upon a compile...".
Proof.
  split; [reflexivity |]. vm_compute. discriminate.
Qed.

(** C4, as the code has it. When the five values contain neither an opening
    brace nor a dollar sign, none of the five placeholder tokens occurs in
    the rendered document. *)
Theorem render_leaves_no_placeholder (t a c l b tok : string) :
  JsString.has_char "{" t = false -> JsString.has_char "$" t = false ->
  JsString.has_char "{" a = false -> JsString.has_char "$" a = false ->
  JsString.has_char "{" c = false -> JsString.has_char "$" c = false ->
  JsString.has_char "{" l = false -> JsString.has_char "$" l = false ->
  JsString.has_char "{" b = false -> JsString.has_char "$" b = false ->
  In tok placeholders ->
  JsString.occurrences tok (render t a c l b) = 0.
Proof.
  intros Bt Dt Ba Da Bc Dc Bl Dl Bb Db Htok.
  rewrite render_plain by assumption.
  pose proof (story_document_no_brace t a c l b Bt Ba Bc Bl Bb) as N.
  repeat (destruct Htok as [<- | Htok]; [now apply occurrences_no_first |]).
  destruct Htok.
Qed.

Lemma render_leaves_no_placeholder_witness :
  JsString.has_char "{" "Once upon a compile..." = false
  /\ JsString.has_char "$" "Once upon a compile..." = false
  /\ In "{content}" placeholders
  /\ JsString.occurrences "{content}"
       (render "A Tale of Borrow Checker" "alice" "2023-05-01T10:00:00Z" "rust"
               "Once upon a compile...") = 0.
Proof.
  split; [reflexivity | split; [reflexivity |]].
  assert (In "{content}" placeholders) as Htok by (cbn; tauto).
  split; [exact Htok |].
  exact (render_leaves_no_placeholder
           "A Tale of Borrow Checker" "alice" "2023-05-01T10:00:00Z" "rust"
           "Once upon a compile..." "{content}"
           eq_refl eq_refl eq_refl eq_refl eq_refl eq_refl eq_refl eq_refl eq_refl eq_refl
           Htok).
Defined.

(** C4 fails as stated: the title [$&] has no opening brace, and the
    replacement pattern [$&] stands for the matched text, so the placeholder
    [{title}] is still in the rendered document. *)
Lemma render_dollar_ampersand_keeps_placeholder :
  JsString.has_char "{" "$&" = false
  /\ JsString.has_char "{" "alice" = false
  /\ JsString.has_char "{" "2023-05-01T10:00:00Z" = false
  /\ JsString.has_char "{" "rust" = false
  /\ JsString.has_char "{" "Once upon a compile..." = false
  /\ JsString.occurrences "{title}"
       (render "$&" "alice" "2023-05-01T10:00:00Z" "rust" "Once upon a compile...") = 1.
Proof. repeat split. Qed.

(** ** The claims about the story handler *)

Lemma categories_plain (c : string) :
  In c categories ->
  JsString.has_char "$" c = false /\ JsString.has_char "{" c = false.
Proof.
  intros H. repeat (destruct H as [<- | H]; [split; reflexivity |]). destruct H.
Qed.

(** The rendered document is longer than the body it ends with. *)
Lemma story_document_not_body (t a c l b : string) : story_document t a c l b <> b.
Proof.
  intros E. apply (f_equal String.length) in E.
  rewrite story_document_fragments, !length_append in E.
  change (String.length frag_title) with 24 in E. lia.
Qed.

Section HandlerClaims.

Variable slugify : string -> string.
Variables ghBotUsername ghBotEmail : string.
Variable JSON_stringify : string -> string.

Local Abbreviation handler :=
  (storyGenerator slugify ghBotUsername ghBotEmail JSON_stringify).
Local Abbreviation request :=
  (story_request slugify ghBotUsername ghBotEmail).

(** The file commits of a run, in every case. *)
Lemma storyGenerator_file_commits (context : IssueContext) (p : Platform) :
  file_commits (snd (handler context (start p)))
  = match get_error p with
    | Some _ => []
    | None =>
        if gate (issue p) then
          match classify (map name (labels (issue p))) with
          | Some category => [request (issue p) context category]
          | None => []
          end
        else []
    end.
Proof.
  unfold file_commits.
  destruct (get_error p) as [e|] eqn:E.
  - now rewrite (storyGenerator_fetch_failed _ _ _ _ _ _ _ E).
  - destruct (gate (issue p)) eqn:G.
    + rewrite (storyGenerator_gate_open_calls _ _ _ _ _ _ E G).
      now destruct (classify _).
    + now rewrite (storyGenerator_gate_closed _ _ _ _ _ _ E G).
Qed.

(** The label updates of a run, in every case. *)
Lemma storyGenerator_label_updates (context : IssueContext) (p : Platform) :
  label_updates (snd (handler context (start p)))
  = match get_error p with
    | Some _ => []
    | None => if gate (issue p) then [published_request (issue p) context] else []
    end.
Proof.
  unfold label_updates.
  destruct (get_error p) as [e|] eqn:E.
  - now rewrite (storyGenerator_fetch_failed _ _ _ _ _ _ _ E).
  - destruct (gate (issue p)) eqn:G.
    + rewrite (storyGenerator_gate_open_calls _ _ _ _ _ _ E G).
      now destruct (classify _).
    + now rewrite (storyGenerator_gate_closed _ _ _ _ _ _ E G).
Qed.

(** C2. For a closed issue none of whose assignees is "darkterminal" or
    "mkubdev", the story handler sends no file commit and no label update and
    leaves the platform as it was, whatever the labels of the issue. *)
Theorem no_reviewer_no_effects (context : IssueContext) (p : Platform) :
  state (issue p) = "closed" ->
  authorized (issue p) = false ->
  file_commits (snd (handler context (start p))) = []
  /\ label_updates (snd (handler context (start p))) = []
  /\ platform (snd (handler context (start p))) = p.
Proof.
  intros _ Ha.
  assert (gate (issue p) = false) as G by (unfold gate; rewrite Ha; apply andb_false_r).
  rewrite storyGenerator_file_commits, storyGenerator_label_updates, G.
  destruct (get_error p) as [e|] eqn:E.
  - now rewrite (storyGenerator_fetch_failed _ _ _ _ _ _ _ E).
  - now rewrite (storyGenerator_gate_closed _ _ _ _ _ _ E G).
Qed.

(** C1, as the code has it. A label list made of the tag and one category
    gives that category. A list with a label that is neither the tag nor a
    category name (an extra label, an unknown category), or with two
    different categories, gives no match, and then no file is committed.
    Whatever the classifier returns is a category with which all labels are
    compatible. Presence of the tag is not required: a category name alone
    is classified as that category. *)
Theorem classify_contained_labels (lbls : list string) :
  (forall X, In X categories ->
             (forall x, In x lbls <-> x = "metaphore" \/ x = X) ->
             classify lbls = Some X)
  /\ ((exists x, In x lbls /\ x <> "metaphore" /\ ~ In x categories)
      \/ (exists c d, In c lbls /\ In d lbls
                      /\ In c categories /\ In d categories /\ c <> d) ->
      classify lbls = None)
  /\ (forall context p,
         map name (labels (issue p)) = lbls ->
         classify lbls = None ->
         file_commits (snd (handler context (start p))) = [])
  /\ (forall X, classify lbls = Some X ->
                In X categories
                /\ forall x, In x lbls -> x = "metaphore" \/ x = X)
  /\ (forall X, In X categories -> classify [X] = Some X).
Proof.
  destruct (classify_characterisation lbls) as [H1 [H2 H3]].
  split; [exact H1 | split; [| split; [| split; [exact H3 |]]]].
  - intros [[x [Hx [Hm Hc]]] | [c [d [Hc [Hd [Cc [Cd Hne]]]]]]]; apply H2; intros e He.
    + exists x. repeat split; [exact Hx | exact Hm |]. intros ->. now elim Hc.
    + destruct (string_dec c e) as [-> | Hce].
      * exists d. repeat split; [exact Hd | | congruence].
        intros ->. now elim metaphore_not_category.
      * exists c. repeat split; [exact Hc | | exact Hce].
        intros ->. now elim metaphore_not_category.
  - intros context p E N. rewrite storyGenerator_file_commits, E, N.
    destruct (get_error p); [reflexivity |]. now destruct (gate (issue p)).
  - intros X HX. repeat (destruct HX as [<- | HX]; [reflexivity |]). destruct HX.
Qed.

(** C5, as the code has it. For a matched issue the handler sends exactly one
    file commit: to the path
    public/collections/stories/{category}/{slugified title}.md, with the
    base64 encoding of the rendered template as content and the bot as
    committer and author. When the title, the author handle, the timestamp
    and the body contain no dollar sign, and the first three no opening
    brace, the rendered template is the front matter with the five keys, a
    blank line and the body as it is, and what is committed is not the
    encoding of the body alone. *)
Theorem matched_issue_commit (context : IssueContext) (p : Platform) (category : string) :
  get_error p = None ->
  gate (issue p) = true ->
  classify (map name (labels (issue p))) = Some category ->
  file_commits (snd (handler context (start p)))
  = [ {| file_owner := owner context;
         file_repo := repo context;
         file_path :=
           "public/collections/stories/" ++ category ++ "/"
           ++ slugify (title (issue p)) ++ ".md";
         file_message :=
           "docs(generate): new metaphor from @" ++ login (user (issue p));
         file_content :=
           Base64.encode
             (render (title (issue p)) (login (user (issue p)))
                     (created_at (issue p)) category (body (issue p)));
         file_committer := {| id_name := ghBotUsername; id_email := ghBotEmail |};
         file_author := {| id_name := ghBotUsername; id_email := ghBotEmail |} |} ]
  /\ (JsString.has_char "$" (title (issue p)) = false ->
      JsString.has_char "{" (title (issue p)) = false ->
      JsString.has_char "$" (login (user (issue p))) = false ->
      JsString.has_char "{" (login (user (issue p))) = false ->
      JsString.has_char "$" (created_at (issue p)) = false ->
      JsString.has_char "{" (created_at (issue p)) = false ->
      JsString.has_char "$" (body (issue p)) = false ->
      render (title (issue p)) (login (user (issue p)))
             (created_at (issue p)) category (body (issue p))
      = story_document (title (issue p)) (login (user (issue p)))
                       (created_at (issue p)) category (body (issue p))
      /\ Base64.encode
           (render (title (issue p)) (login (user (issue p)))
                   (created_at (issue p)) category (body (issue p)))
         <> Base64.encode (body (issue p))).
Proof.
  intros E G C. split.
  - rewrite storyGenerator_file_commits, E, G, C. reflexivity.
  - intros Dt Bt Da Ba Dc Bc Db.
    destruct (classify_characterisation (map name (labels (issue p)))) as [_ [_ H3]].
    destruct (categories_plain category (proj1 (H3 category C))) as [Dl Bl].
    rewrite render_plain by assumption.
    split; [reflexivity |].
    intros H. apply encode_injective in H. revert H. apply story_document_not_body.
Qed.

(** The labels after a run that passes the gate and whose label update is
    accepted. *)
Lemma storyGenerator_labels_after (context : IssueContext) (p : Platform) :
  get_error p = None -> gate (issue p) = true -> label_error p = None ->
  keeps_label_set (add_labels p) ->
  labels (issue (platform (snd (handler context (start p)))))
  = if JsArray.includes (map name (labels (issue p))) "published"
    then labels (issue p)
    else (labels (issue p) ++ [{| name := "published" |}])%list.
Proof.
  intros E G L K.
  rewrite (storyGenerator_gate_open_labels _ _ _ _ _ _ E G), L.
  rewrite (keeps_label_set_ext _ K). apply platform_addLabels_published.
Qed.



(** C7, as the code has it. The label update is sent exactly when the fetch
    succeeded and the issue is closed with a reviewer among its assignees;
    the category found, or not found, plays no part. The labels of the issue
    change only then, and only if the platform accepts the update. *)
Theorem published_label_follows_gate (context : IssueContext) (p : Platform) :
  label_updates (snd (handler context (start p)))
  = match get_error p with
    | Some _ => []
    | None => if gate (issue p) then [published_request (issue p) context] else []
    end
  /\ labels (issue (platform (snd (handler context (start p)))))
     = match get_error p, label_error p with
       | None, None =>
           if gate (issue p) then
             add_labels p (labels (issue p))
                        (map name (labels (issue p)) ++ ["published"])%list
           else labels (issue p)
       | _, _ => labels (issue p)
       end.
Proof.
  split; [apply storyGenerator_label_updates |].
  destruct (get_error p) as [e|] eqn:E.
  - now rewrite (storyGenerator_fetch_failed _ _ _ _ _ _ _ E).
  - destruct (gate (issue p)) eqn:G.
    + rewrite (storyGenerator_gate_open_labels _ _ _ _ _ _ E G).
      now destruct (label_error p).
    + rewrite (storyGenerator_gate_closed _ _ _ _ _ _ E G).
      now destruct (label_error p).
Qed.

End HandlerClaims.

(** ** The claims about the event router *)

Section RouterClaims.

Variable slugify : string -> string.
Variables ghBotUsername ghBotEmail : string.
Variable JSON_stringify : string -> string.
Variable greetingContributor : IssueContext -> string -> string -> string -> Js unit.

Local Abbreviation handler :=
  (storyGenerator slugify ghBotUsername ghBotEmail JSON_stringify).
Local Abbreviation route :=
  (router slugify ghBotUsername ghBotEmail JSON_stringify greetingContributor).
Local Abbreviation run :=
  (main slugify ghBotUsername ghBotEmail JSON_stringify greetingContributor).

Lemma trim_not_empty (v : string) : JsString.trim v <> "" -> v <> "".
Proof. intros H E. apply H. rewrite E. reflexivity. Qed.

(** With a token that is not blank, the run is the dispatch, on the trimmed
    messages, under the top-level [catch]. *)
Lemma main_with_token (inputs : string -> string) (action : option string)
      (context : IssueContext) (r : Run) :
  JsString.trim (inputs "github-token") <> "" ->
  run inputs action context r
  = try_catch
      (route action context (JsString.trim (inputs "issue-message"))
             (JsString.trim (inputs "pr-message")) (JsString.trim (inputs "footer")))
      (fun error => setFailed (error_message error)) r.
Proof.
  intros H. pose proof (trim_not_empty _ H) as H'.
  apply String.eqb_neq in H, H'.
  unfold main, try_catch, bind, getInput, getOctokit. rewrite H'. cbn [andb ret].
  rewrite H. reflexivity.
Qed.

(** A run for the action "closed" with a token that is not blank ends as the
    story handler leaves it. *)
Lemma main_closed (inputs : string -> string) (context : IssueContext) (p : Platform) :
  JsString.trim (inputs "github-token") <> "" ->
  run inputs (Some "closed") context (start p)
  = (Normal tt, snd (handler context (start p))).
Proof.
  intros Ht. rewrite (main_with_token _ _ _ _ Ht).
  unfold try_catch, router. cbn [String.eqb Ascii.eqb Bool.eqb].
  unfold bind at 1.
  destruct (storyGenerator_never_fails slugify ghBotUsername ghBotEmail
              JSON_stringify context p) as [[v Hv] _].
  destruct (storyGenerator _ _ _ _ context (start p)) as [c r'].
  cbn [fst snd] in *. subst c. reflexivity.
Qed.

Lemma router_other_action (action : option string) (context : IssueContext)
      (issueMessage prMessage footer : string) (r : Run) :
  action <> Some "closed" -> action <> Some "opened" ->
  route action context issueMessage prMessage footer r
  = (Normal tt,
     {| platform := platform r;
        calls := calls r;
        console := (console r ++ ["No action, skipping"])%list;
        failures := (failures r ++ ["No action, skipping!"])%list;
        unhandled := unhandled r |}).
Proof.
  intros Hc Ho. unfold router. destruct action as [a|]; [| reflexivity].
  destruct (String.eqb a "closed") eqn:Ec.
  - apply String.eqb_eq in Ec. subst a. now elim Hc.
  - destruct (String.eqb a "opened") eqn:Eo; [| reflexivity].
    apply String.eqb_eq in Eo. subst a. now elim Ho.
Qed.

(** C8. The router dispatches on the action of the payload: "closed" runs the
    story handler, "opened" the greeting handler; for any other action, or
    none, it completes normally, without an exception, having logged and
    marked the run failed without sending a request. *)
Theorem router_dispatch_on_action (context : IssueContext)
        (issueMessage prMessage footer : string) :
  route (Some "closed") context issueMessage prMessage footer
  = bind (handler context) (fun _ => ret tt)
  /\ route (Some "opened") context issueMessage prMessage footer
     = greetingContributor context issueMessage prMessage footer
  /\ (forall action r,
         action <> Some "closed" -> action <> Some "opened" ->
         route action context issueMessage prMessage footer r
         = (Normal tt,
            {| platform := platform r;
               calls := calls r;
               console := (console r ++ ["No action, skipping"])%list;
               failures := (failures r ++ ["No action, skipping!"])%list;
               unhandled := unhandled r |})
         /\ run_failed (snd (route action context issueMessage prMessage footer r)) = true).
Proof.
  split; [reflexivity | split; [reflexivity |]].
  intros action r Hc Ho. rewrite (router_other_action _ _ _ _ _ _ Hc Ho).
  split; [reflexivity |]. unfold run_failed. cbn [snd failures].
  now destruct (failures r).
Qed.

(** C9, as the code has it. An error thrown at the top level of the run, by
    the reading of the required token, by the making of the client from a
    blank token or by the greeting handler, is caught there, and the run is
    marked failed with the message of the error. No failure of the story
    handler's requests gets there. A failed fetch of the issue is caught by
    the handler, which writes one console line and returns. The file commit
    and the label update are not awaited: a rejection of either is caught
    nowhere, so that a rejection is left unhandled and only such a one, the
    handler writes no line for it, and [core.setFailed] is not called. *)
Theorem top_level_catch_reports_message (inputs : string -> string)
        (action : option string) (context : IssueContext) (p : Platform) :
  (inputs "github-token" = "" ->
   run inputs action context (start p)
   = (Normal tt,
      {| platform := p; calls := []; console := [];
         failures := ["Input required and not supplied: github-token"];
         unhandled := [] |}))
  /\ (inputs "github-token" <> "" ->
      JsString.trim (inputs "github-token") = "" ->
      run inputs action context (start p)
      = (Normal tt,
         {| platform := p; calls := []; console := [];
            failures := ["Parameter token or opts.auth is required"];
            unhandled := [] |}))
  /\ (JsString.trim (inputs "github-token") <> "" ->
      forall e r',
        greetingContributor context (JsString.trim (inputs "issue-message"))
                            (JsString.trim (inputs "pr-message"))
                            (JsString.trim (inputs "footer")) (start p)
        = (Throw e, r') ->
        run inputs (Some "opened") context (start p)
        = (Normal tt,
           {| platform := platform r'; calls := calls r'; console := console r';
              failures := (failures r' ++ [error_message e])%list;
              unhandled := unhandled r' |}))
  /\ (JsString.trim (inputs "github-token") <> "" ->
      forall e,
        get_error p = Some e ->
        run inputs (Some "closed") context (start p)
        = (Normal tt,
           {| platform := p;
              calls := [GetIssue (owner context) (repo context) (number context)];
              console := ["Error on storyGenerator: " ++ error_toString e];
              failures := [];
              unhandled := [] |}))
  /\ (JsString.trim (inputs "github-token") <> "" ->
      get_error p = None ->
      gate (issue p) = true ->
      failures (snd (run inputs (Some "closed") context (start p))) = []
      /\ Forall (fun line => String.prefix "Error on storyGenerator" line = false)
                (console (snd (run inputs (Some "closed") context (start p))))
      /\ ((classify (map name (labels (issue p))) <> None /\ commit_error p <> None)
          \/ label_error p <> None ->
          unhandled (snd (run inputs (Some "closed") context (start p))) <> [])
      /\ Forall
           (fun e =>
              (classify (map name (labels (issue p))) <> None /\ commit_error p = Some e)
              \/ label_error p = Some e)
           (unhandled (snd (run inputs (Some "closed") context (start p))))).
Proof.
  split; [| split; [| split; [| split]]].
  - intros H. unfold main, try_catch, bind, getInput. rewrite H. reflexivity.
  - intros Hn Hb. apply String.eqb_neq in Hn.
    unfold main, try_catch, bind, getInput, getOctokit. rewrite Hn. cbn [andb ret].
    rewrite Hb. reflexivity.
  - intros Ht e r' G. rewrite (main_with_token _ _ _ _ Ht).
    unfold try_catch, router. cbn [String.eqb Ascii.eqb Bool.eqb]. now rewrite G.
  - intros Ht e G. rewrite (main_closed _ _ _ Ht).
    now rewrite (storyGenerator_fetch_failed _ _ _ _ _ _ _ G).
  - intros Ht E G. rewrite (main_closed _ _ _ Ht). cbn [snd].
    destruct (storyGenerator_gate_open_outcome
                slugify ghBotUsername ghBotEmail JSON_stringify context p E G)
      as [_ U].
    split; [apply storyGenerator_never_fails | split; [| split]].
    + now apply storyGenerator_gate_open_console.
    + rewrite U. intros [[C Ce] | Le].
      * destruct (classify (map name (labels (issue p)))); [| now elim C].
        destruct (commit_error p); [discriminate | now elim Ce].
      * destruct (label_error p); [| now elim Le].
        destruct (match classify (map name (labels (issue p))) with
                  | Some _ => match commit_error p with Some e => [e] | None => [] end
                  | None => []
                  end); discriminate.
    + rewrite U. apply Forall_app. split.
      * destruct (classify (map name (labels (issue p)))); [| constructor].
        destruct (commit_error p); constructor; [| constructor].
        left. split; [discriminate | reflexivity].
      * destruct (label_error p); constructor; [| constructor]. now right.
Qed.

End RouterClaims.

(** ** The claims at concrete issues *)

(** The exact pair, in either order, is classified as its category. *)
Lemma classify_contained_labels_witness :
  In "rust" categories
  /\ (forall x, In x ["rust"; "metaphore"] <-> x = "metaphore" \/ x = "rust")
  /\ classify ["rust"; "metaphore"] = Some "rust".
Proof.
  assert (In "rust" categories) as HX by (cbn; tauto).
  assert (forall x, In x ["rust"; "metaphore"] <-> x = "metaphore" \/ x = "rust") as Hl.
  { intros x. cbn. split; intros H; intuition auto. }
  split; [exact HX | split; [exact Hl |]].
  exact (proj1 (classify_contained_labels (fun s => s) "metaphor-bot" "bot@example.com"
                  (fun s => s) ["rust"; "metaphore"]) "rust" HX Hl).
Defined.

(** The scenario of issue 42 with an assignee who is not a reviewer. *)
Lemma no_reviewer_no_effects_witness :
  state (issue (sample_platform
                  (sample_issue ["metaphore"; "rust"] "mallory" "Once upon a compile...")))
  = "closed"
  /\ authorized (issue (sample_platform
                          (sample_issue ["metaphore"; "rust"] "mallory"
                                        "Once upon a compile..."))) = false
  /\ file_commits
       (snd (storyGenerator (fun s => s) "metaphor-bot" "bot@example.com" (fun s => s)
               sample_context
               (start (sample_platform
                         (sample_issue ["metaphore"; "rust"] "mallory"
                                       "Once upon a compile..."))))) = []
  /\ label_updates
       (snd (storyGenerator (fun s => s) "metaphor-bot" "bot@example.com" (fun s => s)
               sample_context
               (start (sample_platform
                         (sample_issue ["metaphore"; "rust"] "mallory"
                                       "Once upon a compile..."))))) = [].
Proof.
  split; [reflexivity | split; [reflexivity |]].
  destruct (no_reviewer_no_effects (fun s => s) "metaphor-bot" "bot@example.com"
              (fun s => s) sample_context
              (sample_platform
                 (sample_issue ["metaphore"; "rust"] "mallory" "Once upon a compile..."))
              eq_refl eq_refl) as [Hf [Hl _]].
  split; [exact Hf | exact Hl].
Defined.

(** The scenario of issue 42: one commit, to the rust directory. *)
Lemma matched_issue_commit_witness :
  gate (sample_issue ["metaphore"; "rust"] "darkterminal" "Once upon a compile...") = true
  /\ classify ["metaphore"; "rust"] = Some "rust"
  /\ map file_path
       (file_commits
          (snd (storyGenerator (fun s => s) "metaphor-bot" "bot@example.com" (fun s => s)
                  sample_context
                  (start (sample_platform
                            (sample_issue ["metaphore"; "rust"] "darkterminal"
                                          "Once upon a compile..."))))))
     = ["public/collections/stories/rust/A Tale of Borrow Checker.md"]
  /\ render "A Tale of Borrow Checker" "alice" "2023-05-01T10:00:00Z" "rust"
            "Once upon a compile..."
     = story_document "A Tale of Borrow Checker" "alice" "2023-05-01T10:00:00Z" "rust"
                      "Once upon a compile...".
Proof.
  split; [reflexivity | split; [reflexivity |]].
  destruct (matched_issue_commit (fun s => s) "metaphor-bot" "bot@example.com"
              (fun s => s) sample_context
              (sample_platform
                 (sample_issue ["metaphore"; "rust"] "darkterminal"
                               "Once upon a compile..."))
              "rust" eq_refl eq_refl eq_refl) as [Hc Hd].
  split.
  - rewrite Hc. reflexivity.
  - exact (proj1 (Hd eq_refl eq_refl eq_refl eq_refl eq_refl eq_refl eq_refl)).
Defined.

(** C5 fails as stated: in a body, [$$] is a replacement pattern for one
    dollar sign, so the committed document does not end with the body as it
    is. *)
Lemma matched_issue_dollar_body_not_verbatim :
  gate (sample_issue ["metaphore"; "rust"] "darkterminal" "It costs $$5") = true
  /\ classify ["metaphore"; "rust"] = Some "rust"
  /\ map file_content
       (file_commits
          (snd (storyGenerator (fun s => s) "metaphor-bot" "bot@example.com" (fun s => s)
                  sample_context
                  (start (sample_platform
                            (sample_issue ["metaphore"; "rust"] "darkterminal"
                                          "It costs $$5"))))))
     = [Base64.encode
          (story_document "A Tale of Borrow Checker" "alice" "2023-05-01T10:00:00Z"
                          "rust" "It costs $5")]
  /\ Base64.encode
       (story_document "A Tale of Borrow Checker" "alice" "2023-05-01T10:00:00Z"
                       "rust" "It costs $5")
     <> Base64.encode
          (story_document "A Tale of Borrow Checker" "alice" "2023-05-01T10:00:00Z"
                          "rust" "It costs $$5").
Proof.
  split; [reflexivity | split; [reflexivity | split; [reflexivity |]]].
  vm_compute. discriminate.
Qed.



(** C7 fails as stated: a closed issue with a reviewer and the single label
    "bug" matches no category and gets no commit, and yet it is labelled
    "published". *)
Lemma unmatched_issue_labelled_published :
  classify ["bug"] = None
  /\ file_commits
       (snd (storyGenerator (fun s => s) "metaphor-bot" "bot@example.com" (fun s => s)
               sample_context
               (start (sample_platform
                         (sample_issue ["bug"] "darkterminal" "The printer is on fire.")))))
     = []
  /\ map lbl_labels
       (label_updates
          (snd (storyGenerator (fun s => s) "metaphor-bot" "bot@example.com" (fun s => s)
                  sample_context
                  (start (sample_platform
                            (sample_issue ["bug"] "darkterminal"
                                          "The printer is on fire."))))))
     = [["bug"; "published"]]
  /\ issue_labels
       (snd (storyGenerator (fun s => s) "metaphor-bot" "bot@example.com" (fun s => s)
               sample_context
               (start (sample_platform
                         (sample_issue ["bug"] "darkterminal" "The printer is on fire.")))))
     = ["bug"; "published"].
Proof. repeat split. Qed.

(** The action "edited". *)
Lemma router_dispatch_on_action_witness :
  Some "edited" <> Some "closed"
  /\ Some "edited" <> Some "opened"
  /\ router (fun s => s) "metaphor-bot" "bot@example.com" (fun s => s)
            (fun _ _ _ _ => ret tt) (Some "edited") sample_context "" "" ""
            (start (sample_platform
                      (sample_issue ["metaphore"; "rust"] "darkterminal"
                                    "Once upon a compile...")))
     = (Normal tt,
        {| platform :=
             sample_platform
               (sample_issue ["metaphore"; "rust"] "darkterminal" "Once upon a compile...");
           calls := [];
           console := ["No action, skipping"];
           failures := ["No action, skipping!"];
           unhandled := [] |}).
Proof.
  assert (Some "edited" <> Some "closed") as Hc by discriminate.
  assert (Some "edited" <> Some "opened") as Ho by discriminate.
  split; [exact Hc | split; [exact Ho |]].
  exact (proj1 (proj2 (proj2
           (router_dispatch_on_action (fun s => s) "metaphor-bot" "bot@example.com"
              (fun s => s) (fun _ _ _ _ => ret tt) sample_context "" "" ""))
           (Some "edited") _ Hc Ho)).
Defined.

(** A greeting handler that throws: the run fails with its message. *)
Lemma top_level_catch_reports_message_witness :
  JsString.trim (sample_inputs "github-token") <> ""
  /\ failures
       (snd (main (fun s => s) "metaphor-bot" "bot@example.com" (fun s => s)
               (fun _ _ _ _ => throw sample_error) sample_inputs (Some "opened")
               sample_context
               (start (sample_platform
                         (sample_issue [] "darkterminal" "Hello")))))
     = ["Bad credentials"].
Proof.
  assert (JsString.trim (sample_inputs "github-token") <> "") as Ht by discriminate.
  split; [exact Ht |].
  destruct (top_level_catch_reports_message
              (fun s => s) "metaphor-bot" "bot@example.com" (fun s => s)
              (fun _ _ _ _ => throw sample_error) sample_inputs (Some "opened")
              sample_context (sample_platform (sample_issue [] "darkterminal" "Hello")))
    as [_ [_ [H _]]].
  rewrite (H Ht sample_error _ eq_refl). reflexivity.
Defined.

(** C9 fails as stated: the fetch of the issue is rejected, the error ends in
    the [catch] of the story handler, and the run is not marked failed. *)
Lemma fetch_failure_run_not_failed :
  get_error sample_platform_fetch_fails = Some sample_error
  /\ main (fun s => s) "metaphor-bot" "bot@example.com" (fun s => s)
          (fun _ _ _ _ => ret tt) sample_inputs (Some "closed") sample_context
          (start sample_platform_fetch_fails)
     = (Normal tt,
        {| platform := sample_platform_fetch_fails;
           calls := [GetIssue "StreetCommunityProgrammer" "metaphore" 42];
           console := ["Error on storyGenerator: HttpError: Bad credentials"];
           failures := [];
           unhandled := [] |})
  /\ run_failed
       (snd (main (fun s => s) "metaphor-bot" "bot@example.com" (fun s => s)
               (fun _ _ _ _ => ret tt) sample_inputs (Some "closed") sample_context
               (start sample_platform_fetch_fails)))
     = false.
Proof. repeat split. Qed.

(** * Further properties *)

(** ** The story handler: requests, results, rejections *)

Section HandlerRuns.

Variable slugify : string -> string.
Variables ghBotUsername ghBotEmail : string.
Variable JSON_stringify : string -> string.

Local Abbreviation handler :=
  (storyGenerator slugify ghBotUsername ghBotEmail JSON_stringify).
Local Abbreviation request :=
  (story_request slugify ghBotUsername ghBotEmail).

(** X1. Every file commit the handler sends, in any run, names the bot as
    committer and as author, goes to the repository of the event and has the
    message "docs(generate): new metaphor from @" followed by the handle of
    the author of the issue. *)
Theorem commits_carry_bot_identity (context : IssueContext) (p : Platform) :
  Forall
    (fun req =>
       file_committer req = {| id_name := ghBotUsername; id_email := ghBotEmail |}
       /\ file_author req = {| id_name := ghBotUsername; id_email := ghBotEmail |}
       /\ file_owner req = owner context
       /\ file_repo req = repo context
       /\ file_message req
          = "docs(generate): new metaphor from @" ++ login (user (issue p)))
    (file_commits (snd (handler context (start p)))).
Proof.
  rewrite storyGenerator_file_commits.
  destruct (get_error p); [constructor |].
  destruct (gate (issue p)); [| constructor].
  destruct (classify _); constructor; [| constructor].
  repeat split.
Qed.

(** X2. The fetch of the issue is the first request of every run, at most
    two requests follow it, at most one of them a file commit and at most
    one a label update, and no file is committed without a label update
    being sent as well. *)
Theorem requests_of_a_run (context : IssueContext) (p : Platform) :
  hd_error (calls (snd (handler context (start p))))
  = Some (GetIssue (owner context) (repo context) (number context))
  /\ length (calls (snd (handler context (start p))))
     = 1 + length (file_commits (snd (handler context (start p))))
       + length (label_updates (snd (handler context (start p))))
  /\ length (file_commits (snd (handler context (start p))))
     <= length (label_updates (snd (handler context (start p))))
  /\ length (label_updates (snd (handler context (start p)))) <= 1.
Proof.
  rewrite storyGenerator_file_commits, storyGenerator_label_updates.
  destruct (get_error p) as [e|] eqn:E.
  - rewrite (storyGenerator_fetch_failed _ _ _ _ _ _ _ E). cbn. repeat split; lia.
  - destruct (gate (issue p)) eqn:G.
    + rewrite (storyGenerator_gate_open_calls _ _ _ _ _ _ E G).
      destruct (classify _); cbn; repeat split; lia.
    + rewrite (storyGenerator_gate_closed _ _ _ _ _ _ E G). cbn. repeat split; lia.
Qed.

(** X3. The promise of the handler is never rejected and the handler never
    marks the run failed: it resolves to [false] when the fetch of the issue
    fails and to [undefined] in every other case, whatever becomes of the
    commit and of the label update. *)
Theorem handler_result (context : IssueContext) (p : Platform) :
  fst (handler context (start p))
  = Normal (match get_error p with Some _ => False | None => Undefined end)
  /\ failures (snd (handler context (start p))) = [].
Proof.
  split; [| apply storyGenerator_never_fails].
  destruct (get_error p) as [e|] eqn:E.
  - now rewrite (storyGenerator_fetch_failed _ _ _ _ _ _ _ E).
  - destruct (gate (issue p)) eqn:G.
    + apply (storyGenerator_gate_open_outcome _ _ _ _ _ _ E G).
    + now rewrite (storyGenerator_gate_closed _ _ _ _ _ _ E G).
Qed.

(** X4. An issue whose state is not "closed" gets no file commit and no
    label update and the platform stays as it was, also when a reviewer is
    assigned and the labels match a category. *)
Theorem open_issue_no_effects (context : IssueContext) (p : Platform) :
  state (issue p) <> "closed" ->
  file_commits (snd (handler context (start p))) = []
  /\ label_updates (snd (handler context (start p))) = []
  /\ platform (snd (handler context (start p))) = p.
Proof.
  intros Hs. apply String.eqb_neq in Hs.
  assert (gate (issue p) = false) as G by (unfold gate; now rewrite Hs).
  rewrite storyGenerator_file_commits, storyGenerator_label_updates, G.
  destruct (get_error p) as [e|] eqn:E.
  - now rewrite (storyGenerator_fetch_failed _ _ _ _ _ _ _ E).
  - now rewrite (storyGenerator_gate_closed _ _ _ _ _ _ E G).
Qed.

(** X5. A rejected file commit of a matched issue reaches no [catch]: the
    handler still resolves to [undefined], none of its console lines is the
    one its [catch] writes, the label update is sent all the same, no file
    is added, and a rejection is left unhandled: that of the commit when the
    label update is accepted, and in any case none but these two. *)
Theorem rejected_commit_is_not_caught (context : IssueContext) (p : Platform)
        (category : string) (e : JsError) :
  get_error p = None ->
  gate (issue p) = true ->
  classify (map name (labels (issue p))) = Some category ->
  commit_error p = Some e ->
  fst (handler context (start p)) = Normal Undefined
  /\ label_updates (snd (handler context (start p)))
     = [published_request (issue p) context]
  /\ unhandled (snd (handler context (start p))) <> []
  /\ Forall (fun x => x = e \/ label_error p = Some x)
            (unhandled (snd (handler context (start p))))
  /\ (label_error p = None -> unhandled (snd (handler context (start p))) = [e])
  /\ files (platform (snd (handler context (start p)))) = files p
  /\ Forall (fun line => String.prefix "Error on storyGenerator" line = false)
            (console (snd (handler context (start p)))).
Proof.
  intros E G C Ce.
  destruct (storyGenerator_gate_open_outcome
              slugify ghBotUsername ghBotEmail JSON_stringify context p E G) as [R U].
  split; [exact R | split; [| split; [| split; [| split; [| split]]]]].
  - now rewrite storyGenerator_label_updates, E, G.
  - rewrite U, C, Ce. discriminate.
  - rewrite U, C, Ce. constructor; [now left |].
    destruct (label_error p); constructor; [| constructor]. now right.
  - intros L. rewrite U, C, Ce, L. reflexivity.
  - rewrite (storyGenerator_gate_open_platform _ _ _ _ _ _ E G). cbn [files platform].
    rewrite C, Ce. apply app_nil_r.
  - now apply storyGenerator_gate_open_console.
Qed.

End HandlerRuns.

(** ** The sentinel label as a guard *)

Lemma published_not_category : ~ In "published" categories.
Proof.
  intros H. repeat (destruct H as [H | H]; [discriminate H |]). exact H.
Qed.

Section Republication.

Variable slugify : string -> string.
Variables ghBotUsername ghBotEmail : string.
Variable JSON_stringify : string -> string.

Local Abbreviation handler :=
  (storyGenerator slugify ghBotUsername ghBotEmail JSON_stringify).

(** An issue that carries "published" gets no file commit. *)
Lemma published_issue_not_committed (context : IssueContext) (p : Platform) :
  In "published" (map name (labels (issue p))) ->
  file_commits (snd (handler context (start p))) = [].
Proof.
  intros H. rewrite storyGenerator_file_commits.
  rewrite (classify_extra_label _ "published" H);
    [| discriminate | exact published_not_category].
  destruct (get_error p); [reflexivity |]. now destruct (gate (issue p)).
Qed.

(** X6. No story is committed twice: on a platform that keeps the labels as
    a set, once a run has passed the gate and its label update was accepted,
    a further run on the resulting platform sends no file commit, because
    the label "published" matches no category. *)
Theorem no_second_commit (context : IssueContext) (p : Platform) :
  get_error p = None ->
  gate (issue p) = true ->
  label_error p = None ->
  keeps_label_set (add_labels p) ->
  In "published" (issue_labels (snd (handler context (start p))))
  /\ file_commits
       (snd (handler context (start (platform (snd (handler context (start p)))))))
     = [].
Proof.
  intros E G L K.
  assert (In "published" (issue_labels (snd (handler context (start p))))) as H.
  { unfold issue_labels. rewrite (storyGenerator_labels_after _ _ _ _ _ _ E G L K).
    destruct (JsArray.includes _ _) eqn:I.
    - now apply includes_In.
    - rewrite map_app. apply in_or_app. right. now left. }
  split; [exact H |]. now apply published_issue_not_committed.
Qed.

End Republication.

(** ** The run as a whole *)

Section Runs.

Variable slugify : string -> string.
Variables ghBotUsername ghBotEmail : string.
Variable JSON_stringify : string -> string.
Variable greetingContributor : IssueContext -> string -> string -> string -> Js unit.

Local Abbreviation run :=
  (main slugify ghBotUsername ghBotEmail JSON_stringify greetingContributor).

(** X8. With a token that is not blank, a run for the action "closed" never
    calls [core.setFailed], whatever the platform answers to the fetch, the
    commit and the label update. *)
Theorem closed_run_never_calls_setFailed (inputs : string -> string)
        (context : IssueContext) (p : Platform) :
  JsString.trim (inputs "github-token") <> "" ->
  failures (snd (run inputs (Some "closed") context (start p))) = [].
Proof.
  intros Ht. rewrite (main_closed _ _ _ _ _ _ _ _ Ht). cbn [snd].
  apply storyGenerator_never_fails.
Qed.

End Runs.

(** ** The classifier: label sets and earlier revisions *)

Lemma matchesCategory_ext (l1 l2 : list string) (e : string * string) :
  (forall x, In x l1 -> In x l2) ->
  matchesCategory l2 e = true -> matchesCategory l1 e = true.
Proof.
  destruct e as [c l]. intros H M. rewrite matchesCategory_iff in *.
  intros x Hx. apply M, H, Hx.
Qed.

(** X9. The classification depends on the set of labels only: two label
    lists with the same elements, in any order and with any repetitions,
    are classified alike. *)
Theorem classify_same_label_set (l1 l2 : list string) :
  (forall x, In x l1 <-> In x l2) ->
  classify l1 = classify l2.
Proof.
  intros H. rewrite !classify_filter.
  rewrite (filter_ext (matchesCategory l1) (matchesCategory l2)); [reflexivity |].
  intros e. apply eq_true_iff_eq.
  split; apply matchesCategory_ext; intros x Hx; now apply H.
Qed.

Lemma first_match_before {A : Type} (p : A * A -> bool) (tbl : list (A * A)) (c : A) :
  (forall e, In e tbl -> snd e = fst e) ->
  In (c, c) tbl -> p (c, c) = true ->
  exists c' before after,
    hd_error (filter p tbl) = Some (c', c')
    /\ map fst tbl = (before ++ c' :: after)%list
    /\ (c' = c \/ In c after).
Proof.
  induction tbl as [|[a b] tbl IH]; intros D Hin Pc; [destruct Hin |].
  assert (b = a) as -> by (apply (D (a, b)); now left).
  cbn [filter map fst]. destruct (p (a, a)) eqn:Pa.
  - exists a, [], (map fst tbl). repeat split.
    destruct Hin as [E | Hin]; [left; now injection E | right].
    now apply (in_map fst) in Hin.
  - destruct Hin as [E | Hin].
    + injection E as ->. rewrite Pc in Pa. discriminate.
    + destruct IH as [c' [before [after [H1 [H2 H3]]]]];
        [intros e He; apply D; now right | exact Hin | exact Pc |].
      exists c', (a :: before), after. repeat split; [exact H1 | | exact H3].
      cbn. now rewrite H2.
Qed.

(** X10. Taking labels away never loses a match: when a label list is
    classified, every list made of some of its labels is classified too, as
    the same category or as one declared before it in the table. *)
Theorem classify_fewer_labels (l1 l2 : list string) (c : string) :
  (forall x, In x l1 -> In x l2) ->
  classify l2 = Some c ->
  exists c' before after,
    classify l1 = Some c'
    /\ categories = (before ++ c' :: after)%list
    /\ (c' = c \/ In c after).
Proof.
  intros H C2.
  destruct (classify_characterisation l2) as [_ [_ S2]].
  destruct (S2 c C2) as [Hc M2]. clear S2.
  assert (matchesCategory l1 (c, c) = true) as M1.
  { apply (matchesCategory_ext l1 l2); [exact H |]. now apply matchesCategory_iff. }
  assert (In (c, c) metaphors) as Hin.
  { unfold categories in Hc. apply in_map_iff in Hc as [[a b] [E Hin]].
    cbn in E. subst a. now rewrite <- (metaphors_label_is_category _ _ Hin) at 2. }
  destruct (first_match_before (matchesCategory l1) metaphors c) as
      [c' [before [after [H1 [H2 H3]]]]]; [| exact Hin | exact M1 |].
  - intros [a b] He. cbn. now apply metaphors_label_is_category.
  - exists c', before, after. split; [| split; [exact H2 | exact H3]].
    rewrite classify_filter.
    destruct (filter (matchesCategory l1) metaphors) as [|[a b] rest];
      [discriminate | now injection H1 as -> ->].
Qed.

Lemma classify_find (lbls : list string) :
  classify lbls
  = match List.find (matchesCategory lbls) metaphors with
    | Some (_, label) => Some label
    | None => None
    end.
Proof.
  unfold classify, isMetaphor, JsArray.some, JsArray.find.
  destruct (existsb (matchesCategory lbls) metaphors) eqn:E; [reflexivity |].
  destruct (List.find (matchesCategory lbls) metaphors) as [e|] eqn:F; [| reflexivity].
  apply find_some in F as [Hin He].
  assert (existsb (matchesCategory lbls) metaphors = true) as E'
      by (apply existsb_exists; now exists e).
  rewrite E' in E. discriminate.
Qed.

Ltac ladder_step :=
  match goal with
  | |- context [if ?b then _ else _] => destruct b; [reflexivity |]
  end.

Ltac fold_category c :=
  change (JsArray.every (fun label => JsArray.includes ["metaphore"; c] label) ?l)
    with (matchesCategory l (c, c)).

(** X11. The branch ladder of the earlier revision and the table of the
    current one classify alike, except where the current one answers with
    one of the two categories added since, "linux" and "cpp". *)
Theorem ladder_agrees_with_table (lbls : list string) :
  classify lbls <> Some "linux" ->
  classify lbls <> Some "cpp" ->
  classify_golang_ladder lbls = classify lbls.
Proof.
  intros Hl Hc. rewrite classify_find in *.
  unfold classify_golang_ladder. cbv zeta.
  fold_category "css". fold_category "golang". fold_category "javascript".
  fold_category "java". fold_category "maths". fold_category "python".
  fold_category "php". fold_category "physics". fold_category "ruby".
  fold_category "rust". fold_category "zig".
  unfold metaphors in *. cbn [List.find] in *.
  destruct (matchesCategory lbls ("linux", "linux")); [exfalso; apply Hl; reflexivity |].
  destruct (matchesCategory lbls ("cpp", "cpp")); [exfalso; apply Hc; reflexivity |].
  clear Hl Hc.
  repeat ladder_step. reflexivity.
Qed.

(** X12. The two ladders, the one with the category "go" and the one with
    "golang", classify alike every label list that holds neither of the two
    names. *)
Theorem go_ladder_agrees_with_golang_ladder (lbls : list string) :
  ~ In "go" lbls -> ~ In "golang" lbls ->
  classify_go_ladder lbls = classify_golang_ladder lbls.
Proof.
  intros Hgo Hgolang. unfold classify_go_ladder, classify_golang_ladder. cbv zeta.
  destruct (JsArray.every (fun l => JsArray.includes ["metaphore"; "css"] l) lbls) eqn:Css;
    [reflexivity |].
  destruct (proj1 (matchesCategory_false_iff lbls "css" "css") Css) as [x [Hx [Hm _]]].
  assert (forall c, ~ In c lbls ->
                    JsArray.every (fun l => JsArray.includes ["metaphore"; c] l) lbls
                    = false) as N.
  { intros c Hc.
    destruct (JsArray.every (fun l => JsArray.includes ["metaphore"; c] l) lbls) eqn:M;
      [| reflexivity].
    destruct (proj1 (matchesCategory_iff lbls c c) M x Hx) as [E | E];
      [now elim Hm | subst x; now elim Hc]. }
  rewrite (N "go" Hgo), (N "golang" Hgolang). reflexivity.
Qed.

(** ** The renderer on arbitrary values *)

(** A substitution leaves in place a tail that begins with an opening brace
    and in which its own token does not occur. *)
Lemma replace_scan_keeps_tail (p v t : string) :
  JsString.has_char "{" p = false ->
  JsString.occurrences (String "{" p) (String "{" t) = 0 ->
  forall s before k,
    k <= String.length s ->
    exists X,
      JsString.replace_scan (String "{" p) v before (s ++ String "{" t) k
      = X ++ String "{" t.
Proof.
  intros Hp Ht. induction s as [|c s IH]; intros before k Hk.
  - cbn in Hk. assert (k = 0) as -> by lia. exists "".
    now rewrite (replace_scan_absent _ _ _ _ Ht).
  - change (String c s ++ String "{" t) with (String c (s ++ String "{" t)).
    destruct k as [|k].
    + cbn [JsString.replace_scan].
      destruct (String.prefix (String "{" p) (String c (s ++ String "{" t))) eqn:M.
      * assert (String.length p <= String.length s) as L.
        { apply (prefix_before_brace p s t Hp).
          cbn [String.prefix] in M. now destruct (ascii_dec "{" c). }
        cbn [String.length]. rewrite Nat.sub_succ, Nat.sub_0_r.
        destruct (IH (before ++ String c "") (String.length p) L) as [X HX].
        rewrite HX. eexists. now rewrite <- append_assoc.
      * destruct (IH (before ++ String c "") 0 (Nat.le_0_l _)) as [X HX].
        rewrite HX. now exists (String c X).
    + cbn [JsString.replace_scan]. cbn [String.length] in Hk.
      apply IH. lia.
Qed.

(** The last substitution puts the expansion of its value where the token
    ends the text. *)
Lemma replace_scan_final_token (p v : string) :
  JsString.has_char "{" p = false ->
  forall s before k,
    k <= String.length s ->
    exists Y,
      JsString.replace_scan (String "{" p) v before (s ++ String "{" p) k
      = Y ++ JsString.getSubstitution (String "{" p) (before ++ s) "" v.
Proof.
  intros Hp. induction s as [|c s IH]; intros before k Hk.
  - cbn in Hk. assert (k = 0) as -> by lia. exists "".
    cbn [append]. rewrite <- (append_nil_r (String "{" p)) at 2.
    rewrite replace_scan_match, !append_nil_r. reflexivity.
  - change (String c s ++ String "{" p) with (String c (s ++ String "{" p)).
    replace (before ++ String c s) with ((before ++ String c "") ++ s)
      by now rewrite append_assoc.
    destruct k as [|k].
    + cbn [JsString.replace_scan].
      destruct (String.prefix (String "{" p) (String c (s ++ String "{" p))) eqn:M.
      * assert (String.length p <= String.length s) as L.
        { apply (prefix_before_brace p s p Hp).
          cbn [String.prefix] in M. now destruct (ascii_dec "{" c). }
        cbn [String.length]. rewrite Nat.sub_succ, Nat.sub_0_r.
        destruct (IH (before ++ String c "") (String.length p) L) as [Y HY].
        rewrite HY. eexists. now rewrite <- append_assoc.
      * destruct (IH (before ++ String c "") 0 (Nat.le_0_l _)) as [Y HY].
        rewrite HY. now exists (String c Y).
    + cbn [JsString.replace_scan]. cbn [String.length] in Hk.
      apply IH. lia.
Qed.

Lemma replaceAll_keeps_prefix (pre p v s : string) :
  JsString.has_char "{" pre = false ->
  exists s', JsString.replaceAll (String "{" p) v (pre ++ s) = pre ++ s'.
Proof.
  intros H. unfold JsString.replaceAll.
  rewrite (replace_scan_copy _ _ _ _ _ _ H). eexists. reflexivity.
Qed.

(** X13. Whatever the five values are, the rendered document begins with
    the opening of the front matter, up to and including "title: ". *)
Theorem render_begins_with_front_matter (t a c l b : string) :
  exists rest,
    render t a c l b = "---" ++ nl ++ "layout: post" ++ nl ++ "title: " ++ rest.
Proof.
  assert (JsString.has_char "{" frag_title = false) as H by reflexivity.
  assert (exists T, template = frag_title ++ T) as [T ET].
  { exists ("{title}" ++ frag_author ++ "{author}" ++ frag_created_at
            ++ "{created_at}" ++ frag_language ++ "{language}" ++ frag_content
            ++ "{content}"). reflexivity. }
  rewrite render_unfold, ET.
  destruct (replaceAll_keeps_prefix frag_title "title}" t T H) as [R1 E1].
  rewrite E1.
  destruct (replaceAll_keeps_prefix frag_title "author}" a R1 H) as [R2 E2].
  rewrite E2.
  destruct (replaceAll_keeps_prefix frag_title "created_at}" c R2 H) as [R3 E3].
  rewrite E3.
  destruct (replaceAll_keeps_prefix frag_title "language}" l R3 H) as [R4 E4].
  rewrite E4.
  destruct (replaceAll_keeps_prefix frag_title "content}" b R4 H) as [R5 E5].
  rewrite E5.
  exists R5. reflexivity.
Qed.

(** X14. A body without a dollar sign ends the rendered document as it is,
    whatever the title, the author handle, the timestamp and the category
    contain, placeholder tokens and replacement patterns included. *)
Theorem render_ends_with_body (t a c l b : string) :
  JsString.has_char "$" b = false ->
  exists front, render t a c l b = front ++ b.
Proof.
  intros Db. rewrite render_unfold. unfold JsString.replaceAll.
  assert (exists T, template = T ++ "{content}") as [T ->].
  { exists (frag_title ++ "{title}" ++ frag_author ++ "{author}" ++ frag_created_at
            ++ "{created_at}" ++ frag_language ++ "{language}" ++ frag_content).
    reflexivity. }
  destruct (replace_scan_keeps_tail "title}" t "content}" eq_refl eq_refl
              T "" 0 (Nat.le_0_l _)) as [X1 ->].
  destruct (replace_scan_keeps_tail "author}" a "content}" eq_refl eq_refl
              X1 "" 0 (Nat.le_0_l _)) as [X2 ->].
  destruct (replace_scan_keeps_tail "created_at}" c "content}" eq_refl eq_refl
              X2 "" 0 (Nat.le_0_l _)) as [X3 ->].
  destruct (replace_scan_keeps_tail "language}" l "content}" eq_refl eq_refl
              X3 "" 0 (Nat.le_0_l _)) as [X4 ->].
  destruct (replace_scan_final_token "content}" b eq_refl X4 "" 0 (Nat.le_0_l _))
    as [Y ->].
  exists Y. now rewrite (getSubstitution_plain _ _ _ _ Db).
Qed.

(** ** Where and when a story is committed *)

Section Publication.

Variable slugify : string -> string.
Variables ghBotUsername ghBotEmail : string.
Variable JSON_stringify : string -> string.

Local Abbreviation handler :=
  (storyGenerator slugify ghBotUsername ghBotEmail JSON_stringify).

(** X15. A file is only ever committed into the directory of one of the
    thirteen categories under public/collections/stories, under the
    slugified title of the issue with the extension .md, and its content is
    the encoding of the document rendered for that category. *)
Theorem commits_stay_in_category_directories (context : IssueContext) (p : Platform) :
  Forall
    (fun req =>
       exists category,
         In category categories
         /\ file_path req
            = "public/collections/stories/" ++ category ++ "/"
              ++ slugify (title (issue p)) ++ ".md"
         /\ Base64.decode (file_content req)
            = Some (render (title (issue p)) (login (user (issue p)))
                           (created_at (issue p)) category (body (issue p))))
    (file_commits (snd (handler context (start p)))).
Proof.
  rewrite storyGenerator_file_commits.
  destruct (get_error p); [constructor |].
  destruct (gate (issue p)); [| constructor].
  destruct (classify (map name (labels (issue p)))) as [c|] eqn:C; constructor;
    [| constructor].
  exists c. destruct (classify_characterisation (map name (labels (issue p))))
    as [_ [_ H3]].
  split; [apply (H3 c C) | split; [reflexivity |]].
  cbn [story_request file_content]. apply decode_encode.
Qed.

(** X16. A story is committed exactly when the fetch of the issue succeeds,
    the issue is closed, a reviewer is among its assignees, and there is a
    category such that every label of the issue is the tag or that
    category. *)
Theorem commit_exactly_when (context : IssueContext) (p : Platform) :
  file_commits (snd (handler context (start p))) <> []
  <-> (get_error p = None
       /\ state (issue p) = "closed"
       /\ authorized (issue p) = true
       /\ exists category,
            In category categories
            /\ forall x, In x (map name (labels (issue p))) ->
                         x = "metaphore" \/ x = category).
Proof.
  rewrite storyGenerator_file_commits.
  destruct (classify_characterisation (map name (labels (issue p)))) as [_ [H2 H3]].
  split.
  - intros H. destruct (get_error p); [now elim H |].
    destruct (gate (issue p)) eqn:G; [| now elim H].
    unfold gate in G. apply andb_true_iff in G as [Gs Ga]. apply String.eqb_eq in Gs.
    destruct (classify (map name (labels (issue p)))) as [c|] eqn:C; [| now elim H].
    repeat split; try assumption. exists c. apply (H3 c eq_refl).
  - intros [E [Hs [Ha [c [Hc Hall]]]]].
    rewrite E. unfold gate. rewrite Hs, String.eqb_refl, Ha. cbn [andb].
    destruct (classify (map name (labels (issue p)))) as [c'|] eqn:C; [discriminate |].
    exfalso. destruct (proj1 H2 eq_refl c Hc) as [x [Hx [Hm Hn]]].
    destruct (Hall x Hx); contradiction.
Qed.

End Publication.

(** ** The transport encoding *)

Lemma length_encode_three (a b c : ascii) (r : string) :
  String.length (Base64.encode (String a (String b (String c r))))
  = 4 + String.length (Base64.encode r).
Proof. reflexivity. Qed.

(** X17. The base64 encoding is binary-safe: every text is recovered from
    its encoding, and the encoding has four characters for every three
    bytes of the text, the last group padded. *)
Theorem base64_round_trip (s : string) :
  Base64.decode (Base64.encode s) = Some s
  /\ String.length (Base64.encode s) = 4 * ((String.length s + 2) / 3).
Proof.
  split; [apply decode_encode |].
  assert (String.length (Base64.encode s) = 4 * ((String.length s + 2) / 3)
          /\ (forall a, String.length (Base64.encode (String a s))
                        = 4 * ((String.length (String a s) + 2) / 3))
          /\ (forall a b, String.length (Base64.encode (String a (String b s)))
                          = 4 * ((String.length (String a (String b s)) + 2) / 3)))
    as H; [| apply H].
  induction s as [|c s [IH1 [IH2 IH3]]].
  - repeat split.
  - split; [apply IH2 | split; [intros a; apply IH3 |]].
    intros a b. rewrite length_encode_three, IH1. cbn [String.length].
    replace (S (S (S (String.length s))) + 2) with (String.length s + 2 + 1 * 3) by lia.
    rewrite Nat.div_add by lia. lia.
Qed.

(** ** The further properties at concrete issues *)

Lemma open_issue_no_effects_witness :
  state (issue (sample_platform sample_open_issue)) <> "closed"
  /\ file_commits
       (snd (storyGenerator (fun s => s) "metaphor-bot" "bot@example.com" (fun s => s)
               sample_context (start (sample_platform sample_open_issue)))) = []
  /\ label_updates
       (snd (storyGenerator (fun s => s) "metaphor-bot" "bot@example.com" (fun s => s)
               sample_context (start (sample_platform sample_open_issue)))) = [].
Proof.
  assert (state (issue (sample_platform sample_open_issue)) <> "closed") as H
      by discriminate.
  split; [exact H |].
  destruct (open_issue_no_effects (fun s => s) "metaphor-bot" "bot@example.com"
              (fun s => s) sample_context (sample_platform sample_open_issue) H)
    as [Hf [Hl _]].
  split; [exact Hf | exact Hl].
Defined.

Lemma rejected_commit_is_not_caught_witness :
  gate (issue sample_platform_commit_fails) = true
  /\ classify (map name (labels (issue sample_platform_commit_fails))) = Some "rust"
  /\ commit_error sample_platform_commit_fails = Some sample_error
  /\ In sample_error
        (unhandled
           (snd (storyGenerator (fun s => s) "metaphor-bot" "bot@example.com" (fun s => s)
                   sample_context (start sample_platform_commit_fails))))
  /\ map lbl_labels
       (label_updates
          (snd (storyGenerator (fun s => s) "metaphor-bot" "bot@example.com" (fun s => s)
                  sample_context (start sample_platform_commit_fails))))
     = [["metaphore"; "rust"; "published"]].
Proof.
  split; [reflexivity | split; [reflexivity | split; [reflexivity |]]].
  destruct (rejected_commit_is_not_caught
              (fun s => s) "metaphor-bot" "bot@example.com" (fun s => s)
              sample_context sample_platform_commit_fails "rust" sample_error
              eq_refl eq_refl eq_refl eq_refl) as [_ [Hl [_ [_ [Hu _]]]]].
  split; [rewrite (Hu eq_refl); now left | rewrite Hl; reflexivity].
Defined.

Lemma no_second_commit_witness :
  gate (sample_issue ["metaphore"; "rust"] "darkterminal" "Once upon a compile...") = true
  /\ keeps_label_set
       (add_labels (sample_platform
                      (sample_issue ["metaphore"; "rust"] "darkterminal"
                                    "Once upon a compile...")))
  /\ file_commits
       (snd (storyGenerator (fun s => s) "metaphor-bot" "bot@example.com" (fun s => s)
               sample_context
               (start
                  (platform
                     (snd (storyGenerator (fun s => s) "metaphor-bot" "bot@example.com"
                             (fun s => s) sample_context
                             (start (sample_platform
                                       (sample_issue ["metaphore"; "rust"] "darkterminal"
                                                     "Once upon a compile..."))))))))) = [].
Proof.
  split; [reflexivity | split; [exact platform_addLabels_keeps_label_set |]].
  exact (proj2 (no_second_commit
                  (fun s => s) "metaphor-bot" "bot@example.com" (fun s => s)
                  sample_context
                  (sample_platform
                     (sample_issue ["metaphore"; "rust"] "darkterminal"
                                   "Once upon a compile..."))
                  eq_refl eq_refl eq_refl platform_addLabels_keeps_label_set)).
Defined.

Lemma closed_run_never_calls_setFailed_witness :
  JsString.trim (sample_inputs "github-token") <> ""
  /\ failures
       (snd (main (fun s => s) "metaphor-bot" "bot@example.com" (fun s => s)
               (fun _ _ _ _ => ret tt) sample_inputs (Some "closed") sample_context
               (start sample_platform_commit_fails))) = [].
Proof.
  assert (JsString.trim (sample_inputs "github-token") <> "") as Ht by discriminate.
  split; [exact Ht |].
  exact (closed_run_never_calls_setFailed
           (fun s => s) "metaphor-bot" "bot@example.com" (fun s => s)
           (fun _ _ _ _ => ret tt) sample_inputs sample_context
           sample_platform_commit_fails Ht).
Defined.

Lemma classify_same_label_set_witness :
  (forall x, In x ["rust"; "metaphore"; "rust"] <-> In x ["metaphore"; "rust"])
  /\ classify ["rust"; "metaphore"; "rust"] = classify ["metaphore"; "rust"].
Proof.
  assert (forall x, In x ["rust"; "metaphore"; "rust"] <-> In x ["metaphore"; "rust"])
    as H by (intros x; cbn; tauto).
  split; [exact H | exact (classify_same_label_set _ _ H)].
Defined.

Lemma classify_fewer_labels_witness :
  (forall x, In x ["metaphore"] -> In x ["metaphore"; "rust"])
  /\ classify ["metaphore"; "rust"] = Some "rust"
  /\ exists c' before after,
       classify ["metaphore"] = Some c'
       /\ categories = (before ++ c' :: after)%list
       /\ (c' = "rust" \/ In "rust" after).
Proof.
  assert (forall x, In x ["metaphore"] -> In x ["metaphore"; "rust"]) as H
      by (intros x; cbn; tauto).
  split; [exact H | split; [reflexivity |]].
  exact (classify_fewer_labels ["metaphore"] ["metaphore"; "rust"] "rust" H eq_refl).
Defined.

Lemma ladder_agrees_with_table_witness :
  classify ["metaphore"; "rust"] <> Some "linux"
  /\ classify ["metaphore"; "rust"] <> Some "cpp"
  /\ classify_golang_ladder ["metaphore"; "rust"] = classify ["metaphore"; "rust"].
Proof.
  assert (classify ["metaphore"; "rust"] <> Some "linux") as Hl by discriminate.
  assert (classify ["metaphore"; "rust"] <> Some "cpp") as Hc by discriminate.
  split; [exact Hl | split; [exact Hc |]].
  exact (ladder_agrees_with_table ["metaphore"; "rust"] Hl Hc).
Defined.

Lemma go_ladder_agrees_with_golang_ladder_witness :
  ~ In "go" ["metaphore"; "rust"]
  /\ ~ In "golang" ["metaphore"; "rust"]
  /\ classify_go_ladder ["metaphore"; "rust"] = classify_golang_ladder ["metaphore"; "rust"].
Proof.
  assert (~ In "go" ["metaphore"; "rust"]) as Hgo
      by (intros [H | [H | []]]; discriminate H).
  assert (~ In "golang" ["metaphore"; "rust"]) as Hgolang
      by (intros [H | [H | []]]; discriminate H).
  split; [exact Hgo | split; [exact Hgolang |]].
  exact (go_ladder_agrees_with_golang_ladder ["metaphore"; "rust"] Hgo Hgolang).
Defined.

Lemma render_ends_with_body_witness :
  JsString.has_char "$" "Once upon a compile..." = false
  /\ exists front,
       render "{content} for $& and $'" "alice" "2023-05-01T10:00:00Z" "rust"
              "Once upon a compile..."
       = front ++ "Once upon a compile...".
Proof.
  split; [reflexivity |].
  exact (render_ends_with_body "{content} for $& and $'" "alice" "2023-05-01T10:00:00Z"
           "rust" "Once upon a compile..." eq_refl).
Defined.

Lemma commit_exactly_when_witness :
  file_commits
    (snd (storyGenerator (fun s => s) "metaphor-bot" "bot@example.com" (fun s => s)
            sample_context
            (start (sample_platform
                      (sample_issue ["metaphore"; "rust"] "darkterminal"
                                    "Once upon a compile..."))))) <> []
  /\ authorized (sample_issue ["metaphore"; "rust"] "darkterminal" "Once upon a compile...")
     = true.
Proof.
  assert (file_commits
            (snd (storyGenerator (fun s => s) "metaphor-bot" "bot@example.com" (fun s => s)
                    sample_context
                    (start (sample_platform
                              (sample_issue ["metaphore"; "rust"] "darkterminal"
                                            "Once upon a compile..."))))) <> []) as H
      by (vm_compute; discriminate).
  split; [exact H |].
  exact (proj1 (proj2 (proj2 (proj1 (commit_exactly_when
           (fun s => s) "metaphor-bot" "bot@example.com" (fun s => s) sample_context
           (sample_platform
              (sample_issue ["metaphore"; "rust"] "darkterminal" "Once upon a compile...")))
           H)))).
Defined.
